(** * PaperDigest: a shallow embedding of [main.py]

    The program queries arXiv once per configured keyword, asks the
    Hugging Face daily-papers endpoint for trending papers, merges the two
    lists, has a language model summarise every paper and posts each
    summary to a Discord webhook.

    Conventions of the embedding.
    - A Python [str] is a [string] holding its UTF-8 bytes.
    - A value decoded from JSON is a [pyval]; JSON numbers are the integers
      (upvote counts), floating-point numbers are outside the model.
    - An exception is an instance of a class deriving from [Exception]
      (what the network, decoding and attribute operations of the program
      raise), with its class name and its [str()]; [KeyboardInterrupt] and
      [SystemExit], which [except Exception] lets through, are outside the
      model, as is a failure of the module-level construction of the client.
    - Effects are explicit: a computation takes the state of the process
      (clock reads, requests issued, lines printed) and returns either a
      value or the exception it raised, with the state reached.
    - The outside world (clock, arXiv, HTTP endpoints, chat endpoint) is a
      record of functions, [world]; answers may depend on how many calls of
      that kind were made before. *)

From Stdlib Require Import ZArith String Ascii List Sorted Permutation Lia.
From Stdlib Require Import QArith.QArith_base DecimalString.
From stdpp Require Import base gmap strings list.
Import ListNotations.

Set Warnings "-register-all".
Local Open Scope string_scope.
Local Open Scope Z_scope.
Local Open Scope list_scope.

(** ** Python values and exceptions *)

Inductive pyval : Type :=
| VNone
| VBool (b : bool)
| VInt (n : Z)
| VStr (s : string)
| VList (l : list pyval)
| VDict (d : list (string * pyval)).

Record exn : Type := Exn { exn_class : string; exn_str : string }.

Definition type_name (v : pyval) : string :=
  match v with
  | VNone => "NoneType"
  | VBool _ => "bool"
  | VInt _ => "int"
  | VStr _ => "str"
  | VList _ => "list"
  | VDict _ => "dict"
  end.

Definition AttributeError (v : pyval) (attr : string) : exn :=
  Exn "AttributeError"
      ("'" +:+ type_name v +:+ "' object has no attribute '" +:+ attr +:+ "'").

Definition TypeError_lt (a b : pyval) : exn :=
  Exn "TypeError"
      ("'<' not supported between instances of '" +:+ type_name a
         +:+ "' and '" +:+ type_name b +:+ "'").

Definition IndexError : exn := Exn "IndexError" "list index out of range".

(** [bool(v)]: the truth value of a decoded JSON value. *)
Definition truthy (v : pyval) : bool :=
  match v with
  | VNone => false
  | VBool b => b
  | VInt n => negb (n =? 0)
  | VStr s => negb (String.eqb s EmptyString)
  | VList l => match l with [] => false | _ => true end
  | VDict d => match d with [] => false | _ => true end
  end.

(** A [dict] is kept as its items; a key occurs once, [dict_lookup] takes
    the first binding. *)
Fixpoint dict_lookup (k : string) (d : list (string * pyval)) : option pyval :=
  match d with
  | [] => None
  | (k', v) :: d' => if String.eqb k k' then Some v else dict_lookup k d'
  end.

(** [x.get(k, default)]: only a [dict] has the method. *)
Definition py_get (x : pyval) (k : string) (default : pyval) : exn + pyval :=
  match x with
  | VDict d => inr (match dict_lookup k d with Some v => v | None => default end)
  | _ => inl (AttributeError x "get")
  end.

(** Integers and booleans compare as numbers. *)
Definition as_number (v : pyval) : option Z :=
  match v with
  | VInt n => Some n
  | VBool b => Some (if b then 1 else 0)
  | _ => None
  end.

(** [a == b] on decoded JSON values. *)
Fixpoint py_eq (a b : pyval) {struct a} : bool :=
  match a, b with
  | VNone, VNone => true
  | VStr s, VStr t => String.eqb s t
  | VList l, VList m =>
      (fix eq_list (l m : list pyval) {struct l} : bool :=
         match l, m with
         | [], [] => true
         | x :: l', y :: m' => py_eq x y && eq_list l' m'
         | _, _ => false
         end) l m
  | VDict d, VDict e =>
      (length d =? length e)%nat &&
      (fix eq_items (d : list (string * pyval)) {struct d} : bool :=
         match d with
         | [] => true
         | (k, v) :: d' =>
             match dict_lookup k e with
             | Some v' => py_eq v v' && eq_items d'
             | None => false
             end
         end) d
  | VNone, _ | VStr _, _ | VList _, _ | VDict _, _ => false
  | (VBool _ | VInt _), _ =>
      match as_number a, as_number b with
      | Some x, Some y => x =? y
      | _, _ => false
      end
  end.

(** Order of two strings by code point, which is the order of their
    UTF-8 bytes. *)
Fixpoint str_ltb (s t : string) : bool :=
  match s, t with
  | _, EmptyString => false
  | EmptyString, String _ _ => true
  | String a s', String b t' =>
      if (nat_of_ascii a <? nat_of_ascii b)%nat then true
      else if (nat_of_ascii b <? nat_of_ascii a)%nat then false
      else str_ltb s' t'
  end.

(** [a < b]: numbers with numbers, strings with strings, lists
    lexicographically (the first pair of unequal items decides); every
    other pair raises [TypeError]. *)
Fixpoint py_lt (a b : pyval) {struct a} : exn + bool :=
  match a, b with
  | VStr s, VStr t => inr (str_ltb s t)
  | VList l, VList m =>
      (fix lt_list (l m : list pyval) {struct l} : exn + bool :=
         match l, m with
         | [], [] => inr false
         | [], _ :: _ => inr true
         | _ :: _, [] => inr false
         | x :: l', y :: m' => if py_eq x y then lt_list l' m' else py_lt x y
         end) l m
  | (VBool _ | VInt _), _ =>
      match as_number a, as_number b with
      | Some x, Some y => inr (x <? y)
      | _, _ => inl (TypeError_lt a b)
      end
  | _, _ => inl (TypeError_lt a b)
  end.

(** The two operations of the Python runtime that the development leaves
    to the runtime: [str.lower] (Unicode case mapping) and [format(v)],
    the text an f-string puts for a value (for a [str] the string itself). *)
Class PyRuntime : Type := {
  lower : string → string;
  format : pyval → string;
  format_str : ∀ s, format (VStr s) = s
}.

(** ** Computations *)

(** A computation over a state [S]: it returns a value or raises, and
    leaves a state in both cases. *)
Definition M (S A : Type) : Type := S → (exn + A) * S.

#[global] Instance M_ret {S} : MRet (M S) := λ A a s, (inr a, s).

#[global] Instance M_throw {S} : MThrow exn (M S) := λ A e s, (inl e, s).

#[global] Instance M_bind {S} : MBind (M S) :=
  λ A B k c s, match c s with
               | (inr a, s') => k a s'
               | (inl e, s') => (inl e, s')
               end.

(** Pure steps that may raise live in [exn + _]. *)
#[global] Instance sum_ret : MRet (sum exn) := λ A a, inr a.

#[global] Instance sum_bind : MBind (sum exn) :=
  λ A B k r, match r with
             | inr a => k a
             | inl e => inl e
             end.

(** [try: body except Exception as e: handler(e)] *)
Definition try_except {S A} (body : M S A) (handler : exn → M S A) : M S A :=
  λ s, match body s with
       | (inr a, s') => (inr a, s')
       | (inl e, s') => handler e s'
       end.

(** A pure step that may raise. *)
Definition lift_sum {S A} (r : exn + A) : M S A :=
  match r with
  | inr a => mret a
  | inl e => mthrow e
  end.

(** A computation on the process state, run inside a function whose
    local variables are [L]. *)
Definition global {L S A} (c : M S A) : M (L * S) A :=
  λ '(l, s), let '(r, s') := c s in (r, (l, s')).

Definition get_locals {L S} : M (L * S) L := λ '(l, s), (inr l, (l, s)).

Definition set_locals {L S} (l : L) : M (L * S) unit := λ '(_, s), (inr tt, (l, s)).

(** A call: the body runs on fresh locals, which are dropped when it
    returns or raises. *)
Definition call {L S A} (init : L) (body : M (L * S) A) : M S A :=
  λ s, let '(r, (_, s')) := body (init, s) in (r, s').

(** ** The process and the world around it *)

Module arxiv.
(** The part of the [arxiv] package the program uses. *)
Inductive SortCriterion := Relevance | LastUpdatedDate | SubmittedDate.

Record Search : Type := {
  query : string;
  max_results : nat;
  sort_by : SortCriterion
}.

(** [published] is an aware UTC datetime, in microseconds since the epoch;
    [authors] holds the [name] of each author. *)
Record Result : Type := {
  entry_id : string;
  published : Z;
  primary_category : string;
  title : string;
  summary : string;
  authors : list string
}.
End arxiv.

Record response : Type := {
  status_code : Z;
  json : exn + pyval          (* what [resp.json()] does *)
}.

Record chat_request : Type := {
  model : string;
  messages : list (string * string);   (* role, content *)
  temperature : Q
}.

Record state : Type := {
  clock_reads : nat;                      (* calls of [datetime.now] so far *)
  gets : list string;                     (* URLs of the GET requests issued *)
  chats : list chat_request;              (* completion requests issued *)
  posts : list (option string * pyval);   (* POST requests issued: URL, JSON body *)
  stdout : list string                    (* lines printed, oldest first *)
}.

Definition initial_state : state :=
  {| clock_reads := 0; gets := []; chats := []; posts := []; stdout := [] |}.

Record world : Type := {
  (** the n-th reading of the system clock, microseconds since the epoch, UTC *)
  clock : nat → Z;
  (** offset of local time from UTC, microseconds *)
  utcoffset : Z;
  (** what iterating [Client.results(search)] does: each item is a result
      that is yielded, or an exception raised at that point *)
  arxiv_results : arxiv.Search → list (exn + arxiv.Result);
  (** [requests.get(url)] when n GET requests were issued before *)
  requests_get : nat → string → exn + response;
  (** [client.chat.completions.create(...)] when n were issued before; the
      answer is [message.content] of each of its [choices] *)
  chat_create : nat → chat_request → exn + list pyval;
  (** [requests.post(url, json=body)] when n POST requests were issued before *)
  requests_post : nat → option string → pyval → exn + unit;
  (** [os.getenv("DISCORD_WEBHOOK_URL")] *)
  WEBHOOK_URL : option string
}.

Definition print (line : string) : M state unit :=
  λ s, (inr tt, {| clock_reads := clock_reads s; gets := gets s; chats := chats s;
                   posts := posts s; stdout := stdout s ++ [line] |}).

(** [datetime.datetime.now(datetime.timezone.utc)] *)
Definition now_utc (w : world) : M state Z :=
  λ s, (inr (clock w (clock_reads s)),
        {| clock_reads := S (clock_reads s); gets := gets s; chats := chats s;
           posts := posts s; stdout := stdout s |}).

(** [datetime.datetime.now()]: naive local time. *)
Definition now_local (w : world) : M state Z :=
  t ← now_utc w; mret (t + utcoffset w).

Definition http_get (w : world) (url : string) : M state response :=
  λ s, (requests_get w (length (gets s)) url,
        {| clock_reads := clock_reads s; gets := gets s ++ [url]; chats := chats s;
           posts := posts s; stdout := stdout s |}).

Definition chat_completions_create (w : world) (req : chat_request) : M state (list pyval) :=
  λ s, (chat_create w (length (chats s)) req,
        {| clock_reads := clock_reads s; gets := gets s; chats := chats s ++ [req];
           posts := posts s; stdout := stdout s |}).

Definition http_post (w : world) (url : option string) (body : pyval) : M state unit :=
  λ s, (requests_post w (length (posts s)) url body,
        {| clock_reads := clock_reads s; gets := gets s; chats := chats s;
           posts := posts s ++ [(url, body)]; stdout := stdout s |}).

(** ** Dates *)

Definition US_PER_DAY : Z := 86400000000.

(** [timedelta.days] of a difference of [us] microseconds: a [timedelta] is
    normalised with [0 <= seconds < 86400], so [days] is the floor. *)
Definition timedelta_days (us : Z) : Z := us / US_PER_DAY.

(** Year, month and day of the proleptic Gregorian calendar, from the
    number of days since 1970-01-01. *)
Definition civil_from_days (days : Z) : Z * Z * Z :=
  let z := days + 719468 in
  let era := z / 146097 in
  let doe := z - era * 146097 in
  let yoe := (doe - doe / 1460 + doe / 36524 - doe / 146096) / 365 in
  let doy := doe - (365 * yoe + yoe / 4 - yoe / 100) in
  let mp := (5 * doy + 2) / 153 in
  let d := doy - (153 * mp + 2) / 5 + 1 in
  let m := if mp <? 10 then mp + 3 else mp - 9 in
  let y := yoe + era * 400 + (if m <=? 2 then 1 else 0) in
  (y, m, d).

(** [str(n)] for an integer. *)
Definition str_int (n : Z) : string := NilZero.string_of_int (Z.to_int n).

(** [n] in decimal on at least [width] digits ([%02d], [%04d]); [n >= 0]. *)
Definition zero_pad (width : nat) (n : Z) : string :=
  let s := str_int n in
  String.concat EmptyString (repeat "0" (width - String.length s)) +:+ s.

(** [t.strftime("%Y-%m-%d")] for a naive datetime [t], in microseconds
    since the epoch of its own time zone. *)
Definition strftime_ymd (t : Z) : string :=
  let '(y, m, d) := civil_from_days (t / US_PER_DAY) in
  zero_pad 4 y +:+ "-" +:+ zero_pad 2 m +:+ "-" +:+ zero_pad 2 d.

(** ** Configuration *)

Definition MODEL_NAME : string := "gpt-5-nano".

Definition KEYWORDS : list string :=
  [ "Agents";
    "Large Language Models";
    "Vision Language Models";
    "LLM Personalization";
    "RAG";
    "Reasoning";
    "Latent Reasoning" ].

(** A paper as both fetchers produce it: the [dict] with the keys
    ["source"], ["title"], ["url"], ["abstract"], ["authors"], ["color"].
    Title and abstract of a trending paper are whatever the endpoint sent. *)
Record paper : Type := {
  source : string;
  title : pyval;
  url : string;
  abstract : pyval;
  authors : string;
  color : Z
}.

(** ** Keyword Paper Fetcher: [get_arxiv_papers_by_keywords] *)

(** [s.startswith(prefixes)] for a tuple of prefixes. *)
Definition startswith (prefixes : list string) (s : string) : bool :=
  existsb (λ p, String.prefix p s) prefixes.

Definition paper_of_result (r : arxiv.Result) : paper :=
  {| source := "Arxiv [" +:+ arxiv.primary_category r +:+ "]";
     title := VStr (arxiv.title r);
     url := arxiv.entry_id r;
     abstract := VStr (arxiv.summary r);
     authors := String.concat ", " (take 3 (arxiv.authors r)) +:+ " et al.";
     color := 16711680 |}.

(** The local variables that live across the loops. *)
Record locals : Type := {
  collected_papers : list paper;
  seen_ids : gset string
}.

Definition no_papers : locals := {| collected_papers := []; seen_ids := ∅ |}.

(** The three checks on one result, in the order of the source; the clock
    is read only when the identifier is new. *)
Definition seen (r : arxiv.Result) (l : locals) : bool :=
  bool_decide (arxiv.entry_id r ∈ seen_ids l).

Definition too_old (now : Z) (r : arxiv.Result) : bool :=
  2 <? timedelta_days (now - arxiv.published r).

Definition off_topic (r : arxiv.Result) : bool :=
  negb (startswith ["cs"; "stat"] (arxiv.primary_category r)).

(** Lines 72-81: the record is appended and its identifier remembered. *)
Definition accept (r : arxiv.Result) (l : locals) : locals :=
  {| collected_papers := collected_papers l ++ [paper_of_result r];
     seen_ids := seen_ids l ∪ {[arxiv.entry_id r]} |}.

(** The body of the inner loop for one result: [false] is [continue],
    [true] is the [break] after the result was appended. *)
Definition loop_body (w : world) (r : arxiv.Result) : M (locals * state) bool :=
  l ← get_locals;
  if seen r l then mret false else
  now ← global (now_utc w);
  if too_old now r then mret false else
  if off_topic r then mret false else
  set_locals (accept r l);;
  mret true.

(** [for result in arxiv_client.results(search)]: returns
    [found_for_this_keyword]. Items after a [break] are never asked for. *)
Fixpoint for_results (w : world) (items : list (exn + arxiv.Result))
  : M (locals * state) bool :=
  match items with
  | [] => mret false
  | inl e :: _ => mthrow e
  | inr r :: rest =>
      stop ← loop_body w r;
      if stop : bool then mret true else for_results w rest
  end.

(** [s] between double quotes. *)
Definition quoted (s : string) : string :=
  String "034" (s +:+ String "034" EmptyString).

Definition search_for (keyword : string) : arxiv.Search :=
  {| arxiv.query := "ti:" +:+ quoted keyword +:+ " OR abs:" +:+ quoted keyword;
     arxiv.max_results := 5;
     arxiv.sort_by := arxiv.SubmittedDate |}.

(** The lines the fetcher prints. *)
Definition fetching : string := "正在根据关键词逐个抓取 Arxiv (Global Search)...".

Definition searching (keyword : string) : string :=
  "  > 正在搜索: " +:+ keyword +:+ " ...".

Definition nothing_found (keyword : string) : string :=
  "    - " +:+ keyword +:+ ": 暂无最新相关论文".

(** The body of the outer loop for one keyword. *)
Definition for_keyword (w : world) (keyword : string) : M (locals * state) unit :=
  global (print (searching keyword));;
  found ← for_results w (arxiv_results w (search_for keyword));
  if found : bool then mret tt
  else global (print (nothing_found keyword)).

Fixpoint for_keywords (w : world) (keywords : list string) : M (locals * state) unit :=
  match keywords with
  | [] => mret tt
  | keyword :: rest => for_keyword w keyword;; for_keywords w rest
  end.

Definition arxiv_body (w : world) (keywords : list string) : M (locals * state) (list paper) :=
  global (print fetching);;
  for_keywords w keywords;;
  l ← get_locals;
  mret (collected_papers l).

Definition get_arxiv_papers_by_keywords (w : world) : M state (list paper) :=
  call no_papers (arxiv_body w KEYWORDS).

(** ** Trending Paper Fetcher: [get_huggingface_daily_papers] *)

(** The lines the fetcher prints. *)
Definition hf_fetching : string := "正在抓取 Hugging Face Daily Papers...".

Definition hf_failed (e : exn) : string := "HF抓取失败: " +:+ exn_str e.

Definition daily_papers_url (date : string) : string :=
  "https://huggingface.co/api/daily_papers?date=" +:+ date.

(** Lines 97-104: the request for today, the one for yesterday when the
    first answer is not a 200 or decodes to an empty value, and the
    decoding of the answer kept. *)
Definition fetch_daily_papers (w : world) (url : string) : M state pyval :=
  resp ← http_get w url;
  again ← (if status_code resp =? 200
           then body ← lift_sum (json resp); mret (negb (truthy body))
           else mret true);
  resp ← (if again : bool
          then t ← now_local w;
               let yesterday := strftime_ymd (t - 1 * US_PER_DAY) in
               http_get w (daily_papers_url yesterday)
          else mret resp);
  lift_sum (json resp).

(** [[f(x) for x in l]] for an [f] that may raise. *)
Fixpoint map_raising {A B} (f : A → exn + B) (l : list A) : exn + list B :=
  match l with
  | [] => inr []
  | x :: l' => y ← f x; ys ← map_raising f l'; mret (y :: ys)
  end.

(** [sorted(data, key=..., reverse=True)] on the list of (key, item)
    pairs: a stable sort that only asks [<] of keys, here by insertion from
    the right. With [reverse=True] the greater key comes first and items
    with equal keys keep their order. Where keys cannot all be compared
    with each other the sort raises [TypeError]; the pair it names is the
    first this insertion compares, which CPython's merge sort need not
    compare first. *)
Fixpoint insert_desc {A} (k : pyval) (x : A) (l : list (pyval * A))
  : exn + list (pyval * A) :=
  match l with
  | [] => inr [(k, x)]
  | (k', y) :: l' =>
      below ← py_lt k k';
      if below : bool
      then l'' ← insert_desc k x l'; mret ((k', y) :: l'')
      else mret ((k, x) :: (k', y) :: l')
  end.

Fixpoint sort_desc {A} (l : list (pyval * A)) : exn + list (pyval * A) :=
  match l with
  | [] => inr []
  | (k, x) :: l' => s ← sort_desc l'; insert_desc k x s
  end.

Definition upvotes (x : pyval) : exn + pyval := py_get x "upvotes" (VInt 0).

Definition sorted_by_upvotes (data : list pyval) : exn + list pyval :=
  keyed ← map_raising (λ x, k ← upvotes x; mret (k, x)) data;
  s ← sort_desc keyed;
  mret (map snd s).

(** [l[:n]] *)
Definition slice_to {A} (n : Z) (l : list A) : list A :=
  if 0 <=? n then take (Z.to_nat n) l
  else take (Z.to_nat (Z.of_nat (length l) + n)) l.

Section runtime.
Context `{PyRuntime}.

(** One turn of the mapping loop: nothing for an entry without paper
    information, a record otherwise. *)
Definition trending_paper (p : pyval) : exn + list paper :=
  paper_info ← py_get p "paper" (VDict []);
  if negb (truthy paper_info) then mret [] else
  t ← py_get paper_info "title" (VStr "Unknown");
  i ← py_get paper_info "id" (VStr EmptyString);
  a ← py_get paper_info "summary" (VStr EmptyString);
  mret [ {| source := "Hugging Face 🔥";
            title := t;
            url := "https://huggingface.co/papers/" +:+ format i;
            abstract := a;
            authors := "Community Trending";
            color := 16776960 |} ].

Fixpoint trending_papers (sorted_papers : list pyval) : exn + list paper :=
  match sorted_papers with
  | [] => inr []
  | p :: rest => ps ← trending_paper p; qs ← trending_papers rest; mret (ps ++ qs)
  end.

(** Lines 105-122. *)
Definition select_trending (data : pyval) (max_results : Z) : exn + list paper :=
  match data with
  | VList items =>
      sorted ← sorted_by_upvotes items;
      trending_papers (slice_to max_results sorted)
  | _ => inr []
  end.

(** The body of the [try], lines 97-122. *)
Definition trending_body (w : world) (url : string) (max_results : Z)
  : M state (list paper) :=
  data ← fetch_daily_papers w url;
  lift_sum (select_trending data max_results).

Definition get_huggingface_daily_papers (w : world) (max_results : Z)
  : M state (list paper) :=
  print hf_fetching;;
  t ← now_local w;
  let today := strftime_ymd t in
  let url := daily_papers_url today in
  try_except
    (trending_body w url max_results)
    (λ e, print (hf_failed e);; mret []).

End runtime.

(** ** Summarizer, Notifier and the main program *)

Definition nl : string := String "010" EmptyString.

Section pipeline.
Context `{PyRuntime}.

Definition prompt_for (paper_data : paper) : string :=
  nl +:+
  "    You are a research assistant. Summarize this paper for an expert." +:+ nl +:+
  "    " +:+ nl +:+
  "    Paper Title: " +:+ format (title paper_data) +:+ nl +:+
  "    Abstract: " +:+ format (abstract paper_data) +:+ nl +:+
  "    " +:+ nl +:+
  "    Format output strictly:" +:+ nl +:+
  "    **TL;DR**: [One concise sentence]" +:+ nl +:+
  "    **Key Innovation**: [1-2 bullet points on technical novelty]" +:+ nl +:+
  "    **Performance**: [Main metric or result if available]" +:+ nl +:+
  "    ".

Definition completion_request (paper_data : paper) : chat_request :=
  {| model := MODEL_NAME;
     messages := [("user", prompt_for paper_data)];
     temperature := (3 # 10)%Q |}.

(** [response.choices[0].message.content] *)
Definition first_choice (choices : list pyval) : exn + pyval :=
  match choices with
  | c :: _ => inr c
  | [] => inl IndexError
  end.

Definition summarize_with_ai (w : world) (paper_data : paper) : M state pyval :=
  try_except
    (choices ← chat_completions_create w (completion_request paper_data);
     lift_sum (first_choice choices))
    (λ e, mret (VStr ("Summary failed: " +:+ exn_str e))).

Definition embed_of (paper_data : paper) (summary : pyval) (today : string) : pyval :=
  VDict [ ("title", title paper_data);
          ("url", VStr (url paper_data));
          ("description", summary);
          ("color", VInt (color paper_data));
          ("fields",
           VList [ VDict [ ("name", VStr "Topic / Source");
                           ("value", VStr (source paper_data));
                           ("inline", VBool true) ];
                   VDict [ ("name", VStr "Authors");
                           ("value", VStr (authors paper_data));
                           ("inline", VBool true) ] ]);
          ("footer",
           VDict [ ("text", VStr ("Generated by " +:+ MODEL_NAME +:+ " • " +:+ today)) ]) ].

(** The answer to the POST is not looked at; an exception of the request
    is not caught here. *)
Definition send_discord_embed (w : world) (paper_data : paper) (summary : pyval)
  : M state unit :=
  t ← now_local w;
  let embed := embed_of paper_data summary (strftime_ymd t) in
  http_post w (WEBHOOK_URL w) (VDict [("embeds", VList [embed])]).

(** [v.lower()]: only a [str] has the method. *)
Definition py_lower (v : pyval) : exn + string :=
  match v with
  | VStr s => inr (lower s)
  | _ => inl (AttributeError v "lower")
  end.

(** [{p['title'].lower() for p in all_papers}] *)
Fixpoint lowered_titles (all_papers : list paper) : exn + gset string :=
  match all_papers with
  | [] => inr ∅
  | p :: rest =>
      t ← py_lower (title p);
      ts ← lowered_titles rest;
      mret ({[t]} ∪ ts)
  end.

(** The loop of lines 192-194: [existing_titles] is not touched. *)
Fixpoint append_new (existing_titles : gset string)
    (all_papers hf_papers : list paper) : exn + list paper :=
  match hf_papers with
  | [] => inr all_papers
  | hf :: rest =>
      t ← py_lower (title hf);
      if bool_decide (t ∈ existing_titles)
      then append_new existing_titles all_papers rest
      else append_new existing_titles (all_papers ++ [hf]) rest
  end.

(** Cross-Source Deduplicator, lines 191-194. *)
Definition deduplicate (all_papers hf_papers : list paper) : exn + list paper :=
  existing_titles ← lowered_titles all_papers;
  append_new existing_titles all_papers hf_papers.

Definition arxiv_failed (e : exn) : string := "Arxiv 模块出错: " +:+ exn_str e.

(** Lines 182-185: the keyword phase, with the list [all_papers] it
    leaves. *)
Definition keyword_phase (w : world) : M state (list paper) :=
  try_except
    (papers ← get_arxiv_papers_by_keywords w; mret ([] ++ papers))
    (λ e, print (arxiv_failed e);; mret []).

(** Lines 179-194: the list of papers the rest of the run works on. *)
Definition gather_papers (w : world) : M state (list paper) :=
  all_papers ← keyword_phase w;
  hf_papers ← get_huggingface_daily_papers w 3;
  lift_sum (deduplicate all_papers hf_papers).

Fixpoint for_papers (w : world) (all_papers : list paper) : M state unit :=
  match all_papers with
  | [] => mret tt
  | paper :: rest =>
      print ("处理: " +:+ format (title paper));;
      summary ← summarize_with_ai w paper;
      send_discord_embed w paper summary;;
      for_papers w rest
  end.

Definition main (w : world) : M state unit :=
  all_papers ← gather_papers w;
  print ("共获取到 " +:+ str_int (Z.of_nat (length all_papers))
           +:+ " 篇论文，开始总结发送...");;
  for_papers w all_papers;;
  print "全部完成！".

End pipeline.

(** A runtime for plain ASCII text: [str.lower] on the letters A to Z;
    [format] with the [repr] of a string inside a container written
    between single quotes, which is CPython's for printable text without
    quotes or backslashes. On other text CPython does more (Unicode case
    mapping, escapes). *)
Definition ascii_lower (c : ascii) : ascii :=
  let n := nat_of_ascii c in
  if ((65 <=? n) && (n <=? 90))%nat then ascii_of_nat (n + 32) else c.

Fixpoint str_lower (s : string) : string :=
  match s with
  | EmptyString => EmptyString
  | String c s' => String (ascii_lower c) (str_lower s')
  end.

Definition repr_str (s : string) : string := "'" +:+ s +:+ "'".

Fixpoint repr (v : pyval) : string :=
  match v with
  | VNone => "None"
  | VBool true => "True"
  | VBool false => "False"
  | VInt n => str_int n
  | VStr s => repr_str s
  | VList l => "[" +:+ String.concat ", " (map repr l) +:+ "]"
  | VDict d =>
      "{" +:+ String.concat ", " (map (λ '(k, x), repr_str k +:+ ": " +:+ repr x) d) +:+ "}"
  end.

Definition format_plain (v : pyval) : string :=
  match v with
  | VStr s => s
  | _ => repr v
  end.

Definition ascii_runtime : PyRuntime :=
  {| lower := str_lower; format := format_plain; format_str := λ s, eq_refl |}.

(** ** Vocabulary of the statements *)

(** The state after the clock was read up to [n] times in all, and after
    more lines were printed. *)
Definition after_reads (n : nat) (s : state) : state :=
  {| clock_reads := n; gets := gets s; chats := chats s;
     posts := posts s; stdout := stdout s |}.

Definition after_prints (lines : list string) (s : state) : state :=
  {| clock_reads := clock_reads s; gets := gets s; chats := chats s;
     posts := posts s; stdout := stdout s ++ lines |}.

Definition after_gets (urls : list string) (s : state) : state :=
  {| clock_reads := clock_reads s; gets := gets s ++ urls; chats := chats s;
     posts := posts s; stdout := stdout s |}.

(** A result passes the three filters when its identifier is new, it is
    not too old at the clock reading [n] and it is on topic. *)
Definition passes (w : world) (l : locals) (n : nat) (r : arxiv.Result) : Prop :=
  seen r l = false ∧ too_old (clock w n) r = false ∧ off_topic r = false.

(** [skipped w l n rs n']: every result of [rs] fails one of the filters,
    when the scan starts after [n] clock readings; it ends after [n']. *)
Inductive skipped (w : world) (l : locals) : nat → list arxiv.Result → nat → Prop :=
| skipped_none n :
    skipped w l n [] n
| skipped_seen n r rs n' :
    seen r l = true →
    skipped w l n rs n' →
    skipped w l n (r :: rs) n'
| skipped_old n r rs n' :
    seen r l = false →
    too_old (clock w n) r = true →
    skipped w l (S n) rs n' →
    skipped w l n (r :: rs) n'
| skipped_off_topic n r rs n' :
    seen r l = false →
    too_old (clock w n) r = false →
    off_topic r = true →
    skipped w l (S n) rs n' →
    skipped w l n (r :: rs) n'.


(** The locals a computation leaves, whether it returned or raised. *)
Definition locals_after {A} (x : (exn + A) * (locals * state)) : locals := fst (snd x).

(** The record of a result that is on topic. *)
Definition on_topic_record (p : paper) : Prop :=
  ∃ r, p = paper_of_result r ∧ off_topic r = false.

(** The upvote count of an entry of the trending answer, when the entry is
    a [dict] whose ["upvotes"] (0 when absent) is a number. *)
Definition upvote_number (x : pyval) : option Z :=
  match upvotes x with
  | inr k => as_number k
  | inl _ => None
  end.

Definition upvote_count (x : pyval) : Z := default 0 (upvote_number x).

(** Greater upvote counts first. *)
Definition by_upvotes_desc (x y : pyval) : Prop := upvote_count y ≤ upvote_count x.

(** The entries with a given upvote count, in the order of the list. *)
Definition with_upvotes (n : Z) (l : list pyval) : list pyval :=
  List.filter (λ x, upvote_count x =? n) l.

(** The same on the list of (key, item) pairs the sort works on. *)
Definition key_number {A} (kx : pyval * A) : Z := default 0 (as_number kx.1).

Definition by_key_desc {A} (a b : pyval * A) : Prop := key_number b ≤ key_number a.

Definition with_key {A} (n : Z) (l : list (pyval * A)) : list (pyval * A) :=
  List.filter (λ kx, key_number kx =? n) l.

Definition numeric_keys {A} (l : list (pyval * A)) : Prop :=
  Forall (λ kx, is_Some (as_number kx.1)) l.

(** A pair of the list the sort works on: an entry under its upvotes,
    which are a number. *)
Definition keyed_entry (kx : pyval * pyval) : Prop :=
  upvotes kx.2 = inr kx.1 ∧ is_Some (as_number kx.1).

(** An entry with paper information: an object whose ["paper"] is a
    non-empty object. *)
Definition has_paper_info (x : pyval) : Prop :=
  ∃ d info, x = VDict d ∧ dict_lookup "paper" d = Some (VDict info) ∧ info ≠ [].

(** The date the trending fetcher reads off the clock when it starts in
    state [s], and the state in which its [try] block starts. *)
Definition today_of (w : world) (s : state) : string :=
  strftime_ymd (clock w (clock_reads s) + utcoffset w).

Definition hf_started (s : state) : state :=
  after_reads (S (clock_reads s)) (after_prints [hf_fetching] s).

(** The date of the day before the second clock reading of the trending
    fetcher. *)
Definition yesterday_of (w : world) (s : state) : string :=
  strftime_ymd (clock w (S (clock_reads s)) + utcoffset w - 1 * US_PER_DAY).

Definition after_chats (reqs : list chat_request) (s : state) : state :=
  {| clock_reads := clock_reads s; gets := gets s; chats := chats s ++ reqs;
     posts := posts s; stdout := stdout s |}.

Definition has_str_title (p : paper) : Prop := ∃ s, title p = VStr s.

Section titles.
Context `{PyRuntime}.

(** Two papers have the same title when their titles, lower-cased, are
    equal. *)
Definition same_title (a b : paper) : bool :=
  match title a, title b with
  | VStr s, VStr t => String.eqb (lower s) (lower t)
  | _, _ => false
  end.

(** A trending paper survives when no keyword paper has its title. *)
Definition survives (keyword_papers : list paper) (hf : paper) : bool :=
  negb (existsb (same_title hf) keyword_papers).

(** The test of line 193 against a given set of titles. *)
Definition is_new (existing_titles : gset string) (hf : paper) : bool :=
  match py_lower (title hf) with
  | inr t => negb (bool_decide (t ∈ existing_titles))
  | inl _ => false
  end.

End titles.

Definition from_hugging_face (p : paper) : Prop := source p = "Hugging Face 🔥".

(** The results a search yields, and the exceptions it can raise. *)
Definition yields (w : world) (keyword : string) (r : arxiv.Result) : Prop :=
  inr r ∈ arxiv_results w (search_for keyword).

Definition may_raise (w : world) (keyword : string) (e : exn) : Prop :=
  inl e ∈ arxiv_results w (search_for keyword).

(** The identifiers collected are told apart and all remembered. *)
Definition distinct_ids (l : locals) : Prop :=
  NoDup (url <$> collected_papers l)
  ∧ ∀ p, p ∈ collected_papers l → url p ∈ seen_ids l.

(** What every record of the trending fetcher carries. *)
Definition trending_labelled (p : paper) : Prop :=
  source p = "Hugging Face 🔥"
  ∧ authors p = "Community Trending"
  ∧ color p = 16776960
  ∧ String.prefix "https://huggingface.co/papers/" (url p) = true.

(** Whether the trending fetcher, started in state [s], asks again for the
    day before: the first request was answered, and not by a 200 whose
    body decodes to a non-empty value. *)
Definition retries (w : world) (s : state) : bool :=
  match requests_get w (length (gets s)) (daily_papers_url (today_of w s)) with
  | inr resp =>
      if status_code resp =? 200
      then match json resp with
           | inr body => negb (truthy body)
           | inl _ => false
           end
      else true
  | inl _ => false
  end.

Definition is_dict (v : pyval) : bool :=
  match v with VDict _ => true | _ => false end.

(** Values that [<] compares with nothing, not even with their like. *)
Definition unorderable (v : pyval) : bool :=
  match v with VNone | VDict _ => true | _ => false end.

Definition after_posts (new : list (option string * pyval)) (s : state) : state :=
  {| clock_reads := clock_reads s; gets := gets s; chats := chats s;
     posts := posts s ++ new; stdout := stdout s |}.

(** The body of the POST for a paper. *)
Definition payload (paper_data : paper) (summary : pyval) (today : string) : pyval :=
  VDict [("embeds", VList [embed_of paper_data summary today])].


Definition is_str (v : pyval) : bool :=
  match v with VStr _ => true | _ => false end.

(** ** Sample worlds

    A clock stopped at 2026-11-03 12:00:00 UTC, endpoints that answer with
    nothing, and searches that differ from it for one or two keywords. *)

Definition NOON : Z := 1793707200000000.

Definition US_PER_HOUR : Z := 3600000000.

Definition sample_result (id category : string) (age_us : Z) : arxiv.Result :=
  {| arxiv.entry_id := "http://arxiv.org/abs/" +:+ id;
     arxiv.published := NOON - age_us;
     arxiv.primary_category := category;
     arxiv.title := "Paper " +:+ id;
     arxiv.summary := "Abstract of " +:+ id;
     arxiv.authors := ["A. One"; "B. Two"; "C. Three"; "D. Four"] |}.

Definition ok_response (body : pyval) : response :=
  {| status_code := 200; json := inr body |}.

(** The search for [keyword] answers [items], every other search nothing. *)
Definition answers (keyword : string) (items : list (exn + arxiv.Result))
    (others : arxiv.Search → list (exn + arxiv.Result))
  : arxiv.Search → list (exn + arxiv.Result) :=
  λ q, if String.eqb (arxiv.query q) (arxiv.query (search_for keyword))
       then items else others q.

Definition quiet_world : world :=
  {| clock := λ _, NOON;
     utcoffset := 0;
     arxiv_results := λ _, [];
     requests_get := λ _ _, inr (ok_response (VList []));
     chat_create := λ _ _, inr [VStr "**TL;DR**: fine"];
     requests_post := λ _ _ _, inr tt;
     WEBHOOK_URL := Some "https://discord.example/api/webhooks/1" |}.

Definition with_results (f : arxiv.Search → list (exn + arxiv.Result)) (w : world) : world :=
  {| clock := clock w; utcoffset := utcoffset w; arxiv_results := f;
     requests_get := requests_get w; chat_create := chat_create w;
     requests_post := requests_post w; WEBHOOK_URL := WEBHOOK_URL w |}.

Definition with_get (f : nat → string → exn + response) (w : world) : world :=
  {| clock := clock w; utcoffset := utcoffset w; arxiv_results := arxiv_results w;
     requests_get := f; chat_create := chat_create w;
     requests_post := requests_post w; WEBHOOK_URL := WEBHOOK_URL w |}.

Definition with_chat (f : nat → chat_request → exn + list pyval) (w : world) : world :=
  {| clock := clock w; utcoffset := utcoffset w; arxiv_results := arxiv_results w;
     requests_get := requests_get w; chat_create := f;
     requests_post := requests_post w; WEBHOOK_URL := WEBHOOK_URL w |}.

(** A paper of category cs.CL published 2 days and 1 hour before the
    clock reading, the only answer to the first keyword. *)
Definition stale_result : arxiv.Result :=
  sample_result "2610.00001v1" "cs.CL" (2 * US_PER_DAY + US_PER_HOUR).

Definition stale_world : world :=
  with_results (answers "Agents" [inr stale_result] (λ _, [])) quiet_world.

(** An economics paper ahead of a fresh cs.CL paper. *)
Definition econ_result : arxiv.Result :=
  sample_result "2611.00002v1" "econ.GN" US_PER_HOUR.

Definition fresh_result : arxiv.Result :=
  sample_result "2611.00003v1" "cs.CL" US_PER_HOUR.

Definition mixed_world : world :=
  with_results (answers "Agents" [inr econ_result; inr fresh_result] (λ _, []))
    quiet_world.

Definition ConnectionError : exn :=
  Exn "ConnectionError" "Connection aborted.".

(** The first keyword finds a paper, the search for the second fails. *)
Definition failing_search_world : world :=
  with_results
    (answers "Agents" [inr fresh_result]
       (answers "Large Language Models" [inl ConnectionError] (λ _, [])))
    quiet_world.

(** Five trending entries with upvotes 3, 9, 1, 7 and 2, the answer to
    every GET request. *)
Definition trending_entry (id name : string) (votes : Z) : pyval :=
  VDict [ ("paper", VDict [ ("id", VStr id);
                            ("title", VStr name);
                            ("summary", VStr ("Summary of " +:+ name)) ]);
          ("upvotes", VInt votes) ].

Definition trending_record (id name : string) : paper :=
  {| source := "Hugging Face 🔥";
     title := VStr name;
     url := "https://huggingface.co/papers/" +:+ id;
     abstract := VStr ("Summary of " +:+ name);
     authors := "Community Trending";
     color := 16776960 |}.

Definition five_entries : list pyval :=
  [ trending_entry "2611.00003" "Three" 3;
    trending_entry "2611.00009" "Nine" 9;
    trending_entry "2611.00001" "One" 1;
    trending_entry "2611.00007" "Seven" 7;
    trending_entry "2611.00002" "Two" 2 ].

Definition trending_world : world :=
  with_get (λ _ _, inr (ok_response (VList five_entries))) quiet_world.

(** The endpoint has nothing for today and fails on the second request. *)
Definition empty_today_world : world :=
  with_get (λ n _, match n with
                   | O => inr (ok_response (VList []))
                   | _ => inl ConnectionError
                   end) quiet_world.

(** The endpoint sends a list whose second entry is not an object. *)
Definition malformed_world : world :=
  with_get (λ _ _, inr (ok_response
                          (VList [trending_entry "2611.00009" "Nine" 9; VStr "oops"])))
    quiet_world.

Definition JSONDecodeError : exn :=
  Exn "JSONDecodeError" "Expecting value: line 1 column 1 (char 0)".

(** The endpoint answers 200 with a body that is not JSON. *)
Definition undecodable_world : world :=
  with_get (λ _ _, inr {| status_code := 200; json := inl JSONDecodeError |}) quiet_world.

(** Every GET request fails. *)
Definition offline_world : world :=
  with_get (λ _ _, inl ConnectionError) quiet_world.

(** A keyword paper titled "foo bar" and trending papers titled "Foo Bar",
    "Same Title" and "same title". *)
Definition foo_keyword : paper :=
  {| source := "Arxiv [cs.CL]";
     title := VStr "foo bar";
     url := "http://arxiv.org/abs/2611.00042v1";
     abstract := VStr "Abstract of foo bar";
     authors := "A. One et al.";
     color := 16711680 |}.

Definition foo_trending : paper := trending_record "2611.00042" "Foo Bar".

Definition same_trending_1 : paper := trending_record "2611.00051" "Same Title".

Definition same_trending_2 : paper := trending_record "2611.00052" "same title".

(** The chat endpoint is down. *)
Definition APIConnectionError : exn := Exn "APIConnectionError" "Connection error.".

Definition no_chat_world : world :=
  with_chat (λ _ _, inl APIConnectionError) quiet_world.

(** A paper for the first keyword and five trending entries: a whole run
    of the program. *)
Definition busy_world : world :=
  with_results (answers "Agents" [inr fresh_result] (λ _, [])) trending_world.

(** The same fresh paper is the answer to the first and to the fifth
    keyword. *)
Definition repeated_world : world :=
  with_results
    (answers "Agents" [inr fresh_result]
       (answers "RAG" [inr fresh_result] (λ _, [])))
    quiet_world.

(** The endpoint sends two entries, the second with null upvotes. *)
Definition null_upvotes_world : world :=
  with_get (λ _ _, inr (ok_response
                          (VList [ trending_entry "2611.00009" "Nine" 9;
                                   VDict [ ("paper", VDict [("id", VStr "2611.00008")]);
                                           ("upvotes", VNone) ] ])))
    quiet_world.

(** The chat endpoint answers without any choice. *)
Definition no_choice_world : world :=
  with_chat (λ _ _, inr []) quiet_world.




(** The endpoint sends a paper whose title is null. *)
Definition null_title_world : world :=
  with_get (λ _ _, inr (ok_response
                          (VList [ VDict [ ("paper", VDict [ ("id", VStr "2611.00008");
                                                             ("title", VNone) ]);
                                           ("upvotes", VInt 4) ] ])))
    quiet_world.

(** A 200 answer with a zero-byte body: [resp.json()] raises
    JSONDecodeError, "Expecting value: line 1 column 1 (char 0)". *)
Definition empty_body_response : response :=
  {| status_code := 200; json := inl JSONDecodeError |}.

Definition empty_body_world : world :=
  with_get (λ _ _, inr empty_body_response) quiet_world.

(** Fresh papers for the first and the fifth keyword, an old one ahead of
    the second, a search that fails behind the first. *)
Definition second_fresh_result : arxiv.Result :=
  sample_result "2611.00004v1" "stat.ML" US_PER_HOUR.

Definition old_result : arxiv.Result :=
  sample_result "2610.00005v1" "cs.LG" (5 * US_PER_DAY).

Definition two_papers_world : world :=
  with_results
    (answers "Agents" [inr old_result; inr fresh_result; inl ConnectionError]
       (answers "RAG" [inr fresh_result; inr second_fresh_result; inr econ_result]
          (λ _, [])))
    quiet_world.

(** ** Tactics *)

(** Steps of proofs that run a computation: unfold the sequencing, then
    split on the value the next step depends on. *)
Ltac run_step :=
  simpl; unfold mbind, M_bind, mret, M_ret, mthrow, M_throw, lift_sum; simpl.

Ltac case_run :=
  match goal with
  | |- context [match ?x with _ => _ end] => destruct x eqn:?
  end.

(** ** Properties of the Keyword Paper Fetcher *)

Lemma after_reads_same s : after_reads (clock_reads s) s = s.
Proof. by destruct s. Qed.

Lemma after_reads_twice n m s : after_reads n (after_reads m s) = after_reads n s.
Proof. done. Qed.

(** What one turn of the inner loop does, case by case. *)
Lemma loop_body_run w r l s :
  loop_body w r (l, s) =
    if seen r l then (inr false, (l, s))
    else if too_old (clock w (clock_reads s)) r
         then (inr false, (l, after_reads (S (clock_reads s)) s))
    else if off_topic r
         then (inr false, (l, after_reads (S (clock_reads s)) s))
    else (inr true, (accept r l, after_reads (S (clock_reads s)) s)).
Proof.
  unfold loop_body, mbind, M_bind, get_locals, global, now_utc; simpl.
  destruct (seen r l); [done|].
  destruct (too_old _ r); [done|].
  by destruct (off_topic r).
Qed.

Lemma for_results_cons w r rest l s :
  for_results w (inr r :: rest) (l, s) =
    match loop_body w r (l, s) with
    | (inr true, ls) => (inr true, ls)
    | (inr false, ls) => for_results w rest ls
    | (inl e, ls) => (inl e, ls)
    end.
Proof.
  simpl. unfold mbind, M_bind.
  destruct (loop_body w r (l, s)) as [[e|[]] ls]; done.
Qed.

(** A turn that continues leaves the locals as they were, and the result
    it passed over extends any run of skipped results that follows. *)
Lemma loop_body_continue w r l s l' s' :
  loop_body w r (l, s) = (inr false, (l', s')) →
  l' = l ∧ s' = after_reads (clock_reads s') s
  ∧ ∀ rs n, skipped w l (clock_reads s') rs n → skipped w l (clock_reads s) (r :: rs) n.
Proof.
  rewrite loop_body_run.
  destruct (seen r l) eqn:Hseen.
  { intros [= <- <-]. rewrite after_reads_same.
    split; [done|]. split; [done|]. intros rs n. by apply skipped_seen. }
  destruct (too_old _ r) eqn:Hold.
  { intros [= <- <-]. split; [done|]. split; [done|]. intros rs n. by apply skipped_old. }
  destruct (off_topic r) eqn:Hoff; [|done].
  intros [= <- <-]. split; [done|]. split; [done|]. intros rs n. by apply skipped_off_topic.
Qed.

(** A turn that breaks has appended a result that passes the filters. *)
Lemma loop_body_break w r l s ls :
  loop_body w r (l, s) = (inr true, ls) →
  passes w l (clock_reads s) r
  ∧ ls = (accept r l, after_reads (S (clock_reads s)) s).
Proof.
  rewrite loop_body_run. unfold passes.
  destruct (seen r l); [done|].
  destruct (too_old _ r); [done|].
  destruct (off_topic r); [done|].
  by intros [= <-].
Qed.

Lemma loop_body_returns w r l s : ∃ stop ls, loop_body w r (l, s) = (inr stop, ls).
Proof.
  rewrite loop_body_run.
  destruct (seen r l); [by eexists _, _|].
  destruct (too_old _ r); [by eexists _, _|].
  destruct (off_topic r); by eexists _, _.
Qed.

(** The inner loop: it ends on the first result that passes, or on an
    exception of the search, or at the end of the results; the locals
    change only in the first case. *)
Lemma for_results_spec w items : ∀ l s,
  (∃ pre r post n,
      items = (inr <$> pre) ++ inr r :: post ∧
      skipped w l (clock_reads s) pre n ∧ passes w l n r ∧
      for_results w items (l, s) = (inr true, (accept r l, after_reads (S n) s)))
  ∨ (∃ rs n,
      items = inr <$> rs ∧
      skipped w l (clock_reads s) rs n ∧
      for_results w items (l, s) = (inr false, (l, after_reads n s)))
  ∨ (∃ pre e post n,
      items = (inr <$> pre) ++ inl e :: post ∧
      skipped w l (clock_reads s) pre n ∧
      for_results w items (l, s) = (inl e, (l, after_reads n s))).
Proof.
  induction items as [|[e|r] rest IH]; intros l s.
  - right; left. exists [], (clock_reads s).
    split; [done|]. split; [constructor|]. by rewrite after_reads_same.
  - right; right. exists [], e, rest, (clock_reads s).
    split; [done|]. split; [constructor|]. by rewrite after_reads_same.
  - rewrite for_results_cons.
    destruct (loop_body_returns w r l s) as ([] & [l' s'] & Hbody); rewrite Hbody.
    + apply loop_body_break in Hbody as [Hp [= -> ->]].
      left. exists [], r, rest, (clock_reads s).
      split; [done|]. split; [constructor|]. done.
    + apply loop_body_continue in Hbody as (-> & Hs' & Hcons).
      destruct (IH l s') as [(pre & r' & post & n & -> & Hsk & Hp & ->)
                            |[(rs & n & -> & Hsk & ->)
                             |(pre & e & post & n & -> & Hsk & ->)]];
        rewrite Hs', after_reads_twice.
      * left. exists (r :: pre), r', post, n. auto.
      * right; left. exists (r :: rs), n. auto.
      * right; right. exists (r :: pre), e, post, n. auto.
Qed.

Lemma for_keyword_run w keyword l s :
  for_keyword w keyword (l, s) =
    match for_results w (arxiv_results w (search_for keyword))
            (l, after_prints [searching keyword] s) with
    | (inr true, ls) => (inr tt, ls)
    | (inr false, (l', s')) => (inr tt, (l', after_prints [nothing_found keyword] s'))
    | (inl e, ls) => (inl e, ls)
    end.
Proof.
  unfold for_keyword, mbind, M_bind, global, print; simpl.
  fold (after_prints [searching keyword] s).
  destruct (for_results _ _ _) as [[e|[]] [l' s']]; done.
Qed.

(** The three ways the turn of one keyword can end. *)
Lemma for_keyword_spec w keyword l s :
  let items := arxiv_results w (search_for keyword) in
  let s0 := after_prints [searching keyword] s in
  (∃ pre r post n,
      items = (inr <$> pre) ++ inr r :: post ∧
      skipped w l (clock_reads s) pre n ∧ passes w l n r ∧
      for_keyword w keyword (l, s) = (inr tt, (accept r l, after_reads (S n) s0)))
  ∨ (∃ rs n,
      items = inr <$> rs ∧
      skipped w l (clock_reads s) rs n ∧
      for_keyword w keyword (l, s)
        = (inr tt, (l, after_prints [nothing_found keyword] (after_reads n s0))))
  ∨ (∃ pre e post n,
      items = (inr <$> pre) ++ inl e :: post ∧
      skipped w l (clock_reads s) pre n ∧
      for_keyword w keyword (l, s) = (inl e, (l, after_reads n s0))).
Proof.
  intros items s0. rewrite for_keyword_run. fold items s0.
  destruct (for_results_spec w items l s0)
    as [(pre & r & post & n & Hi & Hsk & Hp & ->)
       |[(rs & n & Hi & Hsk & ->)
        |(pre & e & post & n & Hi & Hsk & ->)]].
  - left. by exists pre, r, post, n.
  - right; left. by exists rs, n.
  - right; right. by exists pre, e, post, n.
Qed.

(** A turn leaves the locals as they were or accepts one result that
    passes the filters. *)
Lemma for_keyword_locals w keyword l s :
  locals_after (for_keyword w keyword (l, s)) = l
  ∨ ∃ r n, passes w l n r ∧ locals_after (for_keyword w keyword (l, s)) = accept r l.
Proof.
  destruct (for_keyword_spec w keyword l s)
    as [(pre & r & post & n & _ & _ & Hp & ->)
       |[(rs & n & _ & _ & ->)|(pre & e & post & n & _ & _ & ->)]].
  - right. by exists r, n.
  - by left.
  - by left.
Qed.

Lemma for_keywords_cons w keyword rest l s :
  for_keywords w (keyword :: rest) (l, s) =
    match for_keyword w keyword (l, s) with
    | (inr _, ls) => for_keywords w rest ls
    | (inl e, ls) => (inl e, ls)
    end.
Proof. done. Qed.

(** A property of the locals that accepting a passing result keeps is kept
    by the whole loop over the keywords. *)
Lemma for_keywords_invariant w (P : locals → Prop) :
  (∀ l n r, P l → passes w l n r → P (accept r l)) →
  ∀ keywords l s, P l → P (locals_after (for_keywords w keywords (l, s))).
Proof.
  intros Hacc keywords.
  induction keywords as [|keyword rest IH]; intros l s Hl; [done|].
  rewrite for_keywords_cons.
  pose proof (for_keyword_locals w keyword l s) as Hk.
  destruct (for_keyword w keyword (l, s)) as [[e|[]] [l' s']];
    unfold locals_after in Hk; simpl in Hk.
  - destruct Hk as [->|(r & n & Hp & ->)]; [done|]. by eapply Hacc.
  - apply IH. destruct Hk as [->|(r & n & Hp & ->)]; [done|]. by eapply Hacc.
Qed.

Lemma for_keywords_length w keywords : ∀ l s,
  (length (collected_papers (locals_after (for_keywords w keywords (l, s))))
     ≤ length (collected_papers l) + length keywords)%nat.
Proof.
  induction keywords as [|keyword rest IH]; intros l s; [cbn; lia|].
  rewrite for_keywords_cons.
  pose proof (for_keyword_locals w keyword l s) as Hk.
  destruct (for_keyword w keyword (l, s)) as [[e|[]] [l' s']];
    unfold locals_after in Hk; simpl in Hk.
  - destruct Hk as [->|(r & n & Hp & ->)]; unfold locals_after; simpl;
      rewrite ?length_app; simpl; lia.
  - etrans; [apply IH|].
    destruct Hk as [->|(r & n & Hp & ->)]; simpl;
      rewrite ?length_app; simpl; lia.
Qed.

Lemma arxiv_body_run w keywords l s :
  arxiv_body w keywords (l, s) =
    match for_keywords w keywords (l, after_prints [fetching] s) with
    | (inr _, ls) => (inr (collected_papers (fst ls)), ls)
    | (inl e, ls) => (inl e, ls)
    end.
Proof.
  unfold arxiv_body, mbind, M_bind, global, print, get_locals.
  fold (after_prints [fetching] s).
  destruct (for_keywords _ _ _) as [[e|[]] [l' s']]; done.
Qed.

(** What the function returns is the list its loop collected. *)
Lemma get_arxiv_papers_by_keywords_run w s :
  get_arxiv_papers_by_keywords w s =
    match for_keywords w KEYWORDS (no_papers, after_prints [fetching] s) with
    | (inr _, ls) => (inr (collected_papers (fst ls)), snd ls)
    | (inl e, ls) => (inl e, snd ls)
    end.
Proof.
  unfold get_arxiv_papers_by_keywords, call. rewrite arxiv_body_run.
  destruct (for_keywords _ _ _) as [[e|[]] [l' s']]; done.
Qed.

(** The scan of one keyword on a sample: an economics paper is passed
    over, the next paper is taken, what follows is never asked for. *)
Example for_keyword_sample :
  for_keyword
    (with_results (answers "RAG" [inr econ_result; inr fresh_result; inl ConnectionError]
                     (λ _, [])) quiet_world)
    "RAG" (no_papers, initial_state)
  = (inr tt, (accept fresh_result no_papers,
              after_reads 2 (after_prints [searching "RAG"] initial_state))).
Proof. vm_compute. reflexivity. Qed.



(** The scan of the configured keywords on a sample: an old paper is
    passed over and the next one taken for the first keyword, the failure
    behind it is never met; the fifth keyword finds that paper again,
    passes it over and takes the next; the other keywords find nothing. *)
Example get_arxiv_papers_by_keywords_sample :
  fst (get_arxiv_papers_by_keywords two_papers_world initial_state)
  = inr [paper_of_result fresh_result; paper_of_result second_fresh_result]
  ∧ clock_reads (snd (get_arxiv_papers_by_keywords two_papers_world initial_state)) = 3%nat.
Proof. split; vm_compute; reflexivity. Qed.


(** The recency check lets a result through exactly when fewer than three
    whole days lie between its publication and the clock reading. *)
Lemma too_old_iff now r :
  too_old now r = true ↔ 3 * US_PER_DAY ≤ now - arxiv.published r.
Proof.
  unfold too_old, timedelta_days, US_PER_DAY. rewrite Z.ltb_lt.
  split; intros Hd.
  - assert (3 ≤ (now - arxiv.published r) / 86400000000) as H3 by lia.
    pose proof (Z.mul_div_le (now - arxiv.published r) 86400000000 ltac:(lia)). lia.
  - assert (3 ≤ (now - arxiv.published r) / 86400000000); [|lia].
    apply Z.div_le_lower_bound; lia.
Qed.

(** A result three whole days old or older is passed over. *)
Lemma stale_result_skipped w r l s :
  3 * US_PER_DAY ≤ clock w (clock_reads s) - arxiv.published r →
  ∃ s', loop_body w r (l, s) = (inr false, (l, s')).
Proof.
  intros Hold. apply too_old_iff in Hold.
  rewrite loop_body_run, Hold. destruct (seen r l); by eexists.
Qed.

(** C1, at the failing input: the only answer to the first keyword was
    published 2 days and 1 hour before the clock reading, which is more
    than 2 days (and more than the 48 hours of the comment on line 61),
    and the fetcher returns its record. *)
Theorem recency_filter_keeps_stale_paper :
  NOON - arxiv.published stale_result > 2 * US_PER_DAY
  ∧ too_old NOON stale_result = false
  ∧ fst (get_arxiv_papers_by_keywords stale_world initial_state)
      = inr [paper_of_result stale_result].
Proof. vm_compute. done. Qed.

(** Cancellation on the right of a one-character suffix. *)
Lemma append_char_inj c s t :
  s +:+ String c EmptyString = t +:+ String c EmptyString → s = t.
Proof.
  revert t. induction s as [|a s IH]; intros [|b t] Heq; simpl in Heq.
  - done.
  - injection Heq as _ Heq. by destruct t.
  - injection Heq as _ Heq. by destruct s.
  - injection Heq as -> Heq. f_equal. by apply IH.
Qed.

(** The record of a result shows its primary category. *)
Lemma paper_of_result_category r r' :
  paper_of_result r = paper_of_result r' →
  arxiv.primary_category r = arxiv.primary_category r'.
Proof.
  intros Heq. apply (f_equal source) in Heq. simpl in Heq.
  injection Heq as Heq. by apply append_char_inj in Heq.
Qed.

(** Every record collected is the record of a result that is on topic. *)
Lemma collected_on_topic w keywords l s :
  Forall on_topic_record (collected_papers l) →
  Forall on_topic_record
    (collected_papers (locals_after (for_keywords w keywords (l, s)))).
Proof.
  apply (for_keywords_invariant w
           (λ l, Forall on_topic_record (collected_papers l))).
  intros l0 n r Hl (_ & _ & Hon). simpl.
  apply Forall_app. split; [done|].
  constructor; [|constructor]. by exists r.
Qed.

(** C3: a result whose primary category starts with neither "cs" nor
    "stat" is passed over by the loop, which leaves the collected papers as
    they were, and its record is in no list the fetcher returns. *)
Theorem off_topic_never_included w r :
  off_topic r = true →
  (∀ l s, ∃ s', loop_body w r (l, s) = (inr false, (l, s')))
  ∧ (∀ s papers s',
       get_arxiv_papers_by_keywords w s = (inr papers, s') →
       paper_of_result r ∉ papers).
Proof.
  intros Hoff. split.
  - intros l s. rewrite loop_body_run, Hoff.
    destruct (seen r l); [by eexists|].
    destruct (too_old _ r); by eexists.
  - intros s papers s' Hrun Hin.
    rewrite get_arxiv_papers_by_keywords_run in Hrun.
    pose proof (collected_on_topic w KEYWORDS no_papers
                  (after_prints [fetching] s) ltac:(constructor)) as Hall.
    destruct (for_keywords _ _ _) as [[e|[]] [l' s'']]; [done|].
    injection Hrun as <- <-. unfold locals_after in Hall. simpl in *.
    rewrite Forall_forall in Hall.
    destruct (Hall _ Hin) as (r' & Heq & Hon).
    apply paper_of_result_category in Heq.
    unfold off_topic in *. rewrite Heq in Hoff. congruence.
Qed.

(** On a sample: an economics paper ahead of a cs.CL paper. *)
Lemma off_topic_never_included_witness :
  off_topic econ_result = true
  ∧ fst (get_arxiv_papers_by_keywords mixed_world initial_state)
    = inr [paper_of_result fresh_result]
  ∧ paper_of_result econ_result ∉ [paper_of_result fresh_result].
Proof.
  split; [reflexivity|]. split; [vm_compute; reflexivity|].
  refine (proj2 (off_topic_never_included mixed_world econ_result _)
            initial_state [paper_of_result fresh_result]
            (snd (get_arxiv_papers_by_keywords mixed_world initial_state)) _).
  - vm_compute. reflexivity.
  - vm_compute. reflexivity.
Defined.

(** ** Properties of the Trending Paper Fetcher *)

Lemma py_lt_numbers a b x y :
  as_number a = Some x → as_number b = Some y → py_lt a b = inr (x <? y).
Proof.
  destruct a; try discriminate; simpl; intros [= ->] ->; done.
Qed.

Section sorting.
Context {A : Type}.
Implicit Types (k : pyval) (x : A) (l : list (pyval * A)).

Lemma key_number_eq k x n : as_number k = Some n → key_number (k, x) = n.
Proof. unfold key_number. simpl. by intros ->. Qed.

Lemma with_key_cons n kx l :
  with_key n (kx :: l) =
    if key_number kx =? n then kx :: with_key n l else with_key n l.
Proof. done. Qed.

(** Insertion into a list of numeric keys returns, and the list it
    returns holds the same pairs, is in descending order when the list
    was, and keeps the pairs of every key in their order, the new pair
    ahead of those of its own key. *)
Lemma insert_desc_numbers k x l :
  is_Some (as_number k) → numeric_keys l →
  ∃ l', insert_desc k x l = inr l'
        ∧ l' ≡ₚ (k, x) :: l
        ∧ (StronglySorted by_key_desc l → StronglySorted by_key_desc l')
        ∧ (∀ n, with_key n l' = with_key n ((k, x) :: l)).
Proof.
  intros [n Hk] Hl. induction Hl as [|[k' y] l' [n' Hk'] Hl' IH].
  - exists [(k, x)]. repeat split; try done.
    intros _. repeat constructor.
  - simpl in Hk'. simpl. rewrite (py_lt_numbers k k' n n' Hk Hk').
    unfold mbind, sum_bind.
    pose proof (key_number_eq k x n Hk) as Kx.
    pose proof (key_number_eq k' y n' Hk') as Ky.
    destruct (n <? n') eqn:Hlt.
    + apply Z.ltb_lt in Hlt.
      destruct IH as (l'' & -> & Hperm & Hsorted & Hstable).
      exists ((k', y) :: l''). split; [done|]. split; [|split].
      * rewrite Hperm. apply perm_swap.
      * intros Hs. apply StronglySorted_inv in Hs as [Hs Hall].
        constructor; [by apply Hsorted|].
        rewrite Hperm. constructor; [|done].
        unfold by_key_desc. lia.
      * intros m. rewrite !with_key_cons, Hstable, with_key_cons, Kx, Ky.
        destruct (n' =? m) eqn:E1, (n =? m) eqn:E2; try done. lia.
    + apply Z.ltb_ge in Hlt.
      exists ((k, x) :: (k', y) :: l'). split; [done|]. split; [done|]. split; [|done].
      intros Hs. constructor; [done|].
      assert (by_key_desc (k, x) (k', y)) as Hhead.
      { unfold by_key_desc. lia. }
      constructor; [done|].
      apply StronglySorted_inv in Hs as [_ Hall].
      eapply Forall_impl; [exact Hall|].
      intros kz Hz. unfold by_key_desc in *. lia.
Qed.

Lemma sort_desc_numbers l :
  numeric_keys l →
  ∃ s, sort_desc l = inr s
       ∧ s ≡ₚ l
       ∧ StronglySorted by_key_desc s
       ∧ (∀ n, with_key n s = with_key n l).
Proof.
  intros Hl. induction Hl as [|[k x] l' Hk Hl' IH].
  - exists []. repeat split; try done. constructor.
  - destruct IH as (s & Hrun & Hperm & Hsorted & Hstable).
    simpl. rewrite Hrun. unfold mbind at 1, sum_bind at 1.
    assert (numeric_keys s) as Hs.
    { unfold numeric_keys in *. by rewrite Hperm. }
    destruct (insert_desc_numbers k x s Hk Hs) as (s' & -> & Hperm' & Hsorted' & Hstable').
    exists s'. split; [done|]. split; [|split].
    + by rewrite Hperm', Hperm.
    + by apply Hsorted'.
    + intros n. rewrite Hstable', !with_key_cons, Hstable. done.
Qed.
End sorting.


Lemma keyed_entry_number kx : keyed_entry kx → key_number kx = upvote_count kx.2.
Proof.
  intros [Hup [n Hn]]. unfold key_number, upvote_count, upvote_number.
  by rewrite Hup.
Qed.

(** The keys are computed for every entry before any is compared. *)
Lemma keys_of_entries data :
  Forall (λ x, is_Some (upvote_number x)) data →
  ∃ keyed, map_raising (λ x, k ← upvotes x; mret (k, x)) data = inr keyed
           ∧ map snd keyed = data
           ∧ Forall keyed_entry keyed.
Proof.
  induction 1 as [|x data [n Hx] Hdata (keyed & Hrun & Hsnd & Hall)].
  - by exists [].
  - unfold upvote_number in Hx. destruct (upvotes x) as [e|k] eqn:Hup; [done|].
    exists ((k, x) :: keyed). simpl. rewrite Hup, Hrun. simpl.
    split; [done|]. split; [by rewrite Hsnd|].
    constructor; [|done]. split; [done|]. by exists n.
Qed.

Lemma keyed_entries_sorted s :
  Forall keyed_entry s → StronglySorted by_key_desc s →
  StronglySorted by_upvotes_desc (map snd s).
Proof.
  intros Hall. induction 1 as [|kx s Hs IH Hhead]; simpl; [constructor|].
  apply Forall_cons in Hall as [Hkx Hall].
  constructor; [by apply IH|].
  apply Forall_map. rewrite Forall_forall in Hhead, Hall |- *.
  intros ky Hin. specialize (Hhead ky Hin). unfold by_key_desc in Hhead.
  unfold by_upvotes_desc.
  rewrite <- (keyed_entry_number kx Hkx), <- (keyed_entry_number ky (Hall ky Hin)).
  done.
Qed.

Lemma keyed_entries_with_upvotes n s :
  Forall keyed_entry s → with_upvotes n (map snd s) = map snd (with_key n s).
Proof.
  induction 1 as [|kx s Hkx Hs IH]; [done|].
  unfold with_upvotes, with_key in *. simpl.
  rewrite <- (keyed_entry_number kx Hkx), IH.
  by destruct (key_number kx =? n).
Qed.

(** The sort of line 107 on entries whose upvotes are numbers: it returns
    the entries, greater upvote counts first, entries with the same count
    in the order the endpoint sent them. *)
Lemma sorted_by_upvotes_numbers data :
  Forall (λ x, is_Some (upvote_number x)) data →
  ∃ sorted, sorted_by_upvotes data = inr sorted
            ∧ sorted ≡ₚ data
            ∧ StronglySorted by_upvotes_desc sorted
            ∧ (∀ n, with_upvotes n sorted = with_upvotes n data).
Proof.
  intros Hdata.
  destruct (keys_of_entries data Hdata) as (keyed & Hkeys & Hsnd & Hall).
  assert (numeric_keys keyed) as Hnum.
  { eapply Forall_impl; [exact Hall|]. by intros kx [_ ?]. }
  destruct (sort_desc_numbers keyed Hnum) as (s & Hsort & Hperm & Hsorted & Hstable).
  assert (Forall keyed_entry s) as Hall' by (by rewrite Hperm).
  exists (map snd s). unfold sorted_by_upvotes.
  rewrite Hkeys. simpl. rewrite Hsort. simpl.
  split; [done|]. split; [|split].
  - rewrite <- Hsnd. by apply Permutation_map.
  - by apply keyed_entries_sorted.
  - intros n. rewrite <- Hsnd, !keyed_entries_with_upvotes by done.
    by rewrite Hstable.
Qed.

(** The sample of five entries, capped at 2, in any runtime. *)
Lemma trending_sample (R : PyRuntime) :
  fst (get_huggingface_daily_papers trending_world 2 initial_state)
    = inr [ trending_record "2611.00009" "Nine";
            trending_record "2611.00007" "Seven" ].
Proof.
  destruct R as [lower_R format_R format_R_str].
  vm_compute. by rewrite !format_R_str.
Qed.

Section trending.
Context `{PyRuntime}.

Lemma get_huggingface_daily_papers_run w max_results s :
  get_huggingface_daily_papers w max_results s =
    match trending_body w (daily_papers_url (today_of w s)) max_results (hf_started s) with
    | (inr papers, s1) => (inr papers, s1)
    | (inl e, s1) => (inr [], after_prints [hf_failed e] s1)
    end.
Proof. done. Qed.

Lemma trending_body_run w url max_results s :
  trending_body w url max_results s =
    match fetch_daily_papers w url s with
    | (inr data, s1) =>
        match select_trending data max_results with
        | inr papers => (inr papers, s1)
        | inl e => (inl e, s1)
        end
    | (inl e, s1) => (inl e, s1)
    end.
Proof.
  unfold trending_body, mbind, M_bind.
  destruct (fetch_daily_papers w url s) as [[e|data] s1]; [done|].
  by destruct (select_trending data max_results).
Qed.

(** An entry with paper information is mapped to one record. *)
Lemma trending_paper_info x : has_paper_info x → ∃ p, trending_paper x = inr [p].
Proof.
  intros (d & info & -> & Hinfo & Hne). unfold trending_paper. simpl.
  rewrite Hinfo. destruct info; [done|]. simpl. by eexists.
Qed.

Lemma trending_papers_info entries :
  Forall has_paper_info entries →
  ∃ papers, trending_papers entries = inr papers
            ∧ Forall2 (λ x p, trending_paper x = inr [p]) entries papers.
Proof.
  induction 1 as [|x entries Hx Hentries (papers & Hrun & Hall)].
  - exists []. by split; [|constructor].
  - destruct (trending_paper_info x Hx) as [p Hp].
    exists (p :: papers). simpl. rewrite Hp, Hrun. simpl.
    split; [done|]. by constructor.
Qed.

(** C5: when the answer kept by the fetcher is a list of entries whose
    upvotes are numbers, the records returned are those of the first N
    entries of that list sorted by upvote count, greatest first (entries
    with the same count in the order of the answer); N is a count, so not
    negative. When every entry has paper information, the fetcher returns
    one record for each of these N entries, in that order. On the answer
    with upvotes 3, 9, 1, 7, 2 and N = 2 the fetcher returns the record of
    the paper with 9 upvotes, then that of the paper with 7. *)
Theorem trending_sorted_and_truncated :
  (∀ w N s data s1,
     0 ≤ N →
     Forall (λ x, is_Some (upvote_number x)) data →
     fetch_daily_papers w (daily_papers_url (today_of w s)) (hf_started s)
       = (inr (VList data), s1) →
     ∃ sorted,
       sorted ≡ₚ data
       ∧ StronglySorted by_upvotes_desc sorted
       ∧ (∀ n, with_upvotes n sorted = with_upvotes n data)
       ∧ get_huggingface_daily_papers w N s =
           match trending_papers (take (Z.to_nat N) sorted) with
           | inr papers => (inr papers, s1)
           | inl e => (inr [], after_prints [hf_failed e] s1)
           end
       ∧ (Forall has_paper_info data →
          ∃ papers,
            Forall2 (λ x p, trending_paper x = inr [p]) (take (Z.to_nat N) sorted) papers
            ∧ get_huggingface_daily_papers w N s = (inr papers, s1)))
  ∧ fst (get_huggingface_daily_papers trending_world 2 initial_state)
      = inr [ trending_record "2611.00009" "Nine";
              trending_record "2611.00007" "Seven" ].
Proof.
  split.
  - intros w N s data s1 HN Hdata Hfetch.
    destruct (sorted_by_upvotes_numbers data Hdata)
      as (sorted & Hsort & Hperm & Hsorted & Hstable).
    exists sorted. repeat (split; [done|]).
    assert (get_huggingface_daily_papers w N s =
              match trending_papers (take (Z.to_nat N) sorted) with
              | inr papers => (inr papers, s1)
              | inl e => (inr [], after_prints [hf_failed e] s1)
              end) as Hrun.
    { rewrite get_huggingface_daily_papers_run, trending_body_run, Hfetch.
      unfold select_trending. rewrite Hsort. simpl.
      unfold slice_to. apply Z.leb_le in HN. rewrite HN.
      by destruct (trending_papers _). }
    split; [done|]. intros Hinfo.
    assert (Forall has_paper_info (take (Z.to_nat N) sorted)) as Hfirst.
    { apply Forall_take. by rewrite Hperm. }
    destruct (trending_papers_info _ Hfirst) as (papers & Hpapers & Hall).
    exists papers. split; [done|]. by rewrite Hrun, Hpapers.
  - apply trending_sample.
Qed.

Lemma trending_body_gets w url max_results s :
  gets (snd (trending_body w url max_results s)) = gets (snd (fetch_daily_papers w url s)).
Proof.
  rewrite trending_body_run.
  destruct (fetch_daily_papers w url s) as [[e|data] s1]; [done|].
  by destruct (select_trending data max_results).
Qed.

Lemma get_huggingface_daily_papers_gets w max_results s :
  gets (snd (get_huggingface_daily_papers w max_results s))
  = gets (snd (fetch_daily_papers w (daily_papers_url (today_of w s)) (hf_started s))).
Proof.
  rewrite get_huggingface_daily_papers_run, <- (trending_body_gets w _ max_results).
  by destruct (trending_body _ _ _ _) as [[e|papers] s1].
Qed.

(** The requests of lines 97-102 when the first one is answered. *)
Lemma fetch_daily_papers_gets w url s resp :
  requests_get w (length (gets s)) url = inr resp →
  gets (snd (fetch_daily_papers w url s)) =
    if status_code resp =? 200
    then match json resp with
         | inr body =>
             if truthy body then gets s ++ [url]
             else gets s ++ [url; daily_papers_url
                                    (strftime_ymd (clock w (clock_reads s) + utcoffset w
                                                   - 1 * US_PER_DAY))]
         | inl _ => gets s ++ [url]
         end
    else gets s ++ [url; daily_papers_url
                           (strftime_ymd (clock w (clock_reads s) + utcoffset w
                                          - 1 * US_PER_DAY))].
Proof.
  intros Hget.
  unfold fetch_daily_papers, http_get, now_local, now_utc.
  run_step. rewrite Hget.
  repeat (run_step; try case_run; simplify_eq/=); rewrite <- ?app_assoc; done.
Qed.

(** C6, amended: when the request for today's date is answered with a
    status other than 200, or with a 200 whose body decodes to an empty
    value, the fetcher issues one more request, for the day before, and
    none after it, whatever the second request does (the world is
    arbitrary). *)
Theorem retry_once_with_yesterday w N s resp :
  requests_get w (length (gets s)) (daily_papers_url (today_of w s)) = inr resp →
  (status_code resp ≠ 200 ∨ ∃ body, json resp = inr body ∧ truthy body = false) →
  gets (snd (get_huggingface_daily_papers w N s))
  = gets s ++ [ daily_papers_url (today_of w s);
                daily_papers_url (yesterday_of w s) ].
Proof.
  intros Hget Hempty.
  rewrite get_huggingface_daily_papers_gets.
  rewrite (fetch_daily_papers_gets w _ (hf_started s) resp Hget).
  fold (yesterday_of w s). simpl.
  destruct Hempty as [Hstatus|(body & -> & ->)].
  - apply Z.eqb_neq in Hstatus. by rewrite Hstatus.
  - by destruct (status_code resp =? 200).
Qed.

(** C7: the fetcher always returns a list, and when its [try] block
    raises (in a request, in the decoding of an answer, in the sort or in
    the mapping of the entries) it prints the exception and returns the
    empty list. *)
Theorem trending_fetch_fails_soft w N s :
  (∃ papers s', get_huggingface_daily_papers w N s = (inr papers, s'))
  ∧ (∀ e s1,
       trending_body w (daily_papers_url (today_of w s)) N (hf_started s) = (inl e, s1) →
       get_huggingface_daily_papers w N s = (inr [], after_prints [hf_failed e] s1)).
Proof.
  rewrite get_huggingface_daily_papers_run. split.
  - destruct (trending_body _ _ _ _) as [[e|papers] s1]; by eexists _, _.
  - by intros e s1 ->.
Qed.

End trending.

(** On the sample of five entries, capped at 2. *)
Lemma trending_sorted_and_truncated_witness :
  ∃ sorted,
    sorted ≡ₚ five_entries
    ∧ StronglySorted by_upvotes_desc sorted
    ∧ (∀ n, with_upvotes n sorted = with_upvotes n five_entries)
    ∧ get_huggingface_daily_papers (H:=ascii_runtime) trending_world 2 initial_state =
        match trending_papers (H:=ascii_runtime) (take (Z.to_nat 2) sorted) with
        | inr papers =>
            (inr papers,
             after_gets [daily_papers_url "2026-11-03"] (hf_started initial_state))
        | inl e =>
            (inr [],
             after_prints [hf_failed e]
               (after_gets [daily_papers_url "2026-11-03"] (hf_started initial_state)))
        end
    ∧ (Forall has_paper_info five_entries →
       ∃ papers,
         Forall2 (λ x p, trending_paper (H:=ascii_runtime) x = inr [p])
           (take (Z.to_nat 2) sorted) papers
         ∧ get_huggingface_daily_papers (H:=ascii_runtime) trending_world 2 initial_state
           = (inr papers,
              after_gets [daily_papers_url "2026-11-03"] (hf_started initial_state))).
Proof.
  apply (proj1 (@trending_sorted_and_truncated ascii_runtime)
           trending_world 2 initial_state five_entries).
  - lia.
  - repeat (constructor; [by eexists|]). constructor.
  - vm_compute. reflexivity.
Defined.

(** On a sample: an empty list for today, a failure for yesterday. *)
Lemma retry_once_with_yesterday_witness :
  gets (snd (get_huggingface_daily_papers (H:=ascii_runtime) empty_today_world 3 initial_state))
  = [ daily_papers_url "2026-11-03"; daily_papers_url "2026-11-02" ].
Proof.
  apply (@retry_once_with_yesterday ascii_runtime empty_today_world 3 initial_state
           (ok_response (VList []))).
  - vm_compute. reflexivity.
  - right. exists (VList []). split; reflexivity.
Defined.

(** C6, as worded, fails for an empty body taken literally: a 200 answer
    with a zero-byte body makes [resp.json()] raise on line 99, inside the
    [try]; the request for today is the only one issued, none follows for
    the day before, and the fetcher returns the empty list. *)
Lemma retry_claim_fails_on_empty_body :
  requests_get empty_body_world (length (gets initial_state))
    (daily_papers_url (today_of empty_body_world initial_state))
  = inr empty_body_response
  ∧ status_code empty_body_response = 200
  ∧ json empty_body_response = inl JSONDecodeError
  ∧ gets (snd (get_huggingface_daily_papers (H:=ascii_runtime) empty_body_world 3
                 initial_state))
    = [daily_papers_url "2026-11-03"]
  ∧ gets (snd (get_huggingface_daily_papers (H:=ascii_runtime) empty_body_world 3
                 initial_state))
    ≠ gets initial_state
        ++ [ daily_papers_url (today_of empty_body_world initial_state);
             daily_papers_url (yesterday_of empty_body_world initial_state) ]
  ∧ fst (get_huggingface_daily_papers (H:=ascii_runtime) empty_body_world 3 initial_state)
    = inr [].
Proof.
  split; [reflexivity|]. split; [reflexivity|]. split; [reflexivity|].
  split; [vm_compute; reflexivity|]. split; [|vm_compute; reflexivity].
  vm_compute. discriminate.
Qed.

(** On a sample: an entry that is a string, which has no [get]. *)
Lemma trending_fetch_fails_soft_witness :
  get_huggingface_daily_papers (H:=ascii_runtime) malformed_world 3 initial_state
  = (inr [],
     after_prints [hf_failed (AttributeError (VStr "oops") "get")]
       (after_gets [daily_papers_url "2026-11-03"] (hf_started initial_state))).
Proof.
  apply (proj2 (@trending_fetch_fails_soft ascii_runtime malformed_world 3 initial_state)).
  vm_compute. reflexivity.
Defined.

(** The three sources of failure named for the fetcher, on samples: a
    request that fails, a body that does not decode, an entry that cannot
    be mapped. Each run returns the empty list. *)
Example trending_offline :
  fst (get_huggingface_daily_papers (H:=ascii_runtime) offline_world 3 initial_state) = inr []
  ∧ stdout (snd (get_huggingface_daily_papers (H:=ascii_runtime) offline_world 3 initial_state))
    = [hf_fetching; hf_failed ConnectionError].
Proof. split; vm_compute; reflexivity. Qed.

Example trending_undecodable :
  fst (get_huggingface_daily_papers (H:=ascii_runtime) undecodable_world 3 initial_state) = inr []
  ∧ gets (snd (get_huggingface_daily_papers (H:=ascii_runtime) undecodable_world 3 initial_state))
    = [daily_papers_url "2026-11-03"].
Proof. split; vm_compute; reflexivity. Qed.

Example trending_malformed :
  fst (get_huggingface_daily_papers (H:=ascii_runtime) malformed_world 3 initial_state) = inr [].
Proof. vm_compute. reflexivity. Qed.

(** ** Properties of the Summarizer, the Deduplicator and the main program *)

Section pipeline_facts.
Context `{PyRuntime}.

(** C8: the summarizer always returns a value, and when the completion
    request raises, the value is the text "Summary failed: " followed by
    the message of the exception. *)
Theorem summary_failure_is_caught w paper_data s :
  (∃ summary s', summarize_with_ai w paper_data s = (inr summary, s'))
  ∧ (∀ e,
       chat_create w (length (chats s)) (completion_request paper_data) = inl e →
       summarize_with_ai w paper_data s
       = (inr (VStr ("Summary failed: " +:+ exn_str e)),
          after_chats [completion_request paper_data] s)).
Proof.
  unfold summarize_with_ai, try_except, chat_completions_create.
  run_step. split.
  - destruct (chat_create w _ _) as [e|choices]; [by eexists _, _|].
    destruct (first_choice choices); by eexists _, _.
  - by intros e ->.
Qed.

Lemma py_lower_inr v t : py_lower v = inr t ↔ ∃ s, v = VStr s ∧ lower s = t.
Proof.
  destruct v; simpl; split; try done; try (by intros (? & ? & ?)).
  - intros [= <-]. by eexists.
  - by intros (? & [= <-] & <-).
Qed.

(** The set of line 191 holds the lower-cased titles of the papers. *)
Lemma lowered_titles_elem all_papers : ∀ existing,
  lowered_titles all_papers = inr existing →
  ∀ t, t ∈ existing ↔ ∃ k u, k ∈ all_papers ∧ title k = VStr u ∧ lower u = t.
Proof.
  induction all_papers as [|p rest IH]; intros existing Hrun t; simpl in Hrun.
  - injection Hrun as <-. split; [set_solver|]. intros (k & u & Hk & _). by inversion Hk.
  - destruct (py_lower (title p)) as [e|t0] eqn:Hp; [done|].
    destruct (lowered_titles rest) as [e|ts] eqn:Hrest; [done|].
    simpl in Hrun. injection Hrun as <-.
    apply py_lower_inr in Hp as (u0 & Hu0 & <-).
    rewrite elem_of_union, elem_of_singleton, (IH ts eq_refl). split.
    + intros [->|(k & u & Hk & Hu & <-)].
      * exists p, u0. split; [left|]; done.
      * exists k, u. split; [by right|]; done.
    + intros (k & u & Hk & Hu & <-).
      apply elem_of_cons in Hk as [->|Hk].
      * left. congruence.
      * right. by exists k, u.
Qed.

Lemma lowered_titles_str all_papers :
  Forall has_str_title all_papers → ∃ existing, lowered_titles all_papers = inr existing.
Proof.
  induction 1 as [|p rest [u Hu] Hrest [ts IH]]; [by eexists|].
  simpl. rewrite Hu, IH. by eexists.
Qed.

(** The loop of lines 192-194, when it does not raise: the papers it had,
    then the trending papers whose title is not in the set, in order. *)
Lemma append_new_inr existing hf_papers : ∀ all_papers merged,
  append_new existing all_papers hf_papers = inr merged →
  merged = all_papers ++ List.filter (is_new existing) hf_papers.
Proof.
  induction hf_papers as [|hf rest IH]; intros all_papers merged Hrun; simpl in Hrun.
  - injection Hrun as <-. simpl. by rewrite app_nil_r.
  - unfold is_new at 1. simpl.
    destruct (py_lower (title hf)) as [e|t]; [done|]. simpl in Hrun.
    destruct (bool_decide (t ∈ existing)); simpl.
    + by apply IH.
    + rewrite (IH _ _ Hrun), <- app_assoc. done.
Qed.

Lemma append_new_str existing hf_papers : ∀ all_papers,
  Forall has_str_title hf_papers →
  ∃ merged, append_new existing all_papers hf_papers = inr merged.
Proof.
  induction hf_papers as [|hf rest IH]; intros all_papers Hstr; [by eexists|].
  apply Forall_cons in Hstr as [[u Hu] Hstr]. simpl. rewrite Hu. simpl.
  destruct (bool_decide _); by apply IH.
Qed.

(** Against the titles of the keyword papers, the test of line 193 is the
    comparison of lower-cased titles. *)
Lemma is_new_survives keyword_papers existing hf :
  lowered_titles keyword_papers = inr existing →
  has_str_title hf →
  is_new existing hf = survives keyword_papers hf.
Proof.
  intros Hset [s Hs]. unfold is_new, survives. rewrite Hs. simpl. f_equal.
  apply eq_true_iff_eq. rewrite bool_decide_eq_true, existsb_exists.
  rewrite (lowered_titles_elem _ _ Hset). split.
  - intros (k & u & Hk & Hu & Heq). exists k.
    split; [by apply list_elem_of_In|].
    unfold same_title. rewrite Hs, Hu. apply String.eqb_eq. done.
  - intros (k & Hk & Hsame). unfold same_title in Hsame. rewrite Hs in Hsame.
    destruct (title k) as [| | |u| |] eqn:Hu; try done.
    apply String.eqb_eq in Hsame.
    exists k, u. split; [by apply list_elem_of_In|]. done.
Qed.

(** C4: the merged list is the keyword papers, in their order, then the
    trending papers whose lower-cased title is the lower-cased title of
    no keyword paper, in their order (titles are strings). A trending
    paper titled "Foo Bar" is dropped next to a keyword paper titled
    "foo bar". *)
Theorem deduplicate_keeps_keyword_papers_first :
  (∀ keyword_papers hf_papers,
     Forall has_str_title keyword_papers →
     Forall has_str_title hf_papers →
     deduplicate keyword_papers hf_papers
     = inr (keyword_papers ++ List.filter (survives keyword_papers) hf_papers))
  ∧ (∀ k hf,
       title k = VStr "foo bar" →
       title hf = VStr "Foo Bar" →
       lower "Foo Bar" = lower "foo bar" →
       deduplicate [k] [hf] = inr [k]).
Proof.
  assert (∀ keyword_papers hf_papers,
     Forall has_str_title keyword_papers →
     Forall has_str_title hf_papers →
     deduplicate keyword_papers hf_papers
     = inr (keyword_papers ++ List.filter (survives keyword_papers) hf_papers)) as Hmerge.
  { intros kw hf Hkw Hhf. unfold deduplicate.
    destruct (lowered_titles_str kw Hkw) as [existing Hset]. rewrite Hset. simpl.
    destruct (append_new_str existing hf kw Hhf) as [merged Hrun].
    rewrite Hrun. apply append_new_inr in Hrun as ->. do 2 f_equal.
    apply filter_ext_in. intros h Hin.
    apply (is_new_survives kw existing h Hset).
    rewrite Forall_forall in Hhf. by apply Hhf, list_elem_of_In. }
  split; [exact Hmerge|].
  intros k hf Hk Hhf Hlow.
  rewrite Hmerge by (repeat constructor; by eexists).
  simpl. unfold survives, same_title. simpl. rewrite Hk, Hhf, Hlow.
  by rewrite String.eqb_refl.
Qed.

(** C10: the titles of the trending papers are compared with the set
    built from the keyword papers before the loop, which the loop leaves
    as it is: the merged list is the keyword papers followed by the
    trending papers that are new to that set. So two trending papers with
    the same lower-cased title, which is the title of no keyword paper,
    are both in the merged list, in their order. *)
Theorem trending_duplicates_both_kept keyword_papers h1 a h2 b h3 s t merged :
  title a = VStr s →
  title b = VStr t →
  lower s = lower t →
  (∀ k u, k ∈ keyword_papers → title k = VStr u → lower u ≠ lower s) →
  deduplicate keyword_papers (h1 ++ a :: h2 ++ b :: h3) = inr merged →
  (∃ existing,
      lowered_titles keyword_papers = inr existing
      ∧ merged = keyword_papers
                   ++ List.filter (is_new existing) (h1 ++ a :: h2 ++ b :: h3))
  ∧ ∃ m1 m2 m3, merged = keyword_papers ++ m1 ++ a :: m2 ++ b :: m3.
Proof.
  intros Ha Hb Hst Hfresh Hrun. unfold deduplicate in Hrun.
  destruct (lowered_titles keyword_papers) as [e|existing] eqn:Hset; [done|].
  simpl in Hrun. apply append_new_inr in Hrun as ->.
  split; [by exists existing|].
  assert (lower s ∉ existing) as Hnot.
  { rewrite (lowered_titles_elem _ _ Hset). intros (k & u & Hk & Hu & Heq).
    by apply (Hfresh k u). }
  assert (is_new existing a = true) as Hnew_a.
  { unfold is_new. rewrite Ha. simpl. by rewrite bool_decide_eq_false_2. }
  assert (is_new existing b = true) as Hnew_b.
  { unfold is_new. rewrite Hb. simpl. rewrite <- Hst. by rewrite bool_decide_eq_false_2. }
  exists (List.filter (is_new existing) h1), (List.filter (is_new existing) h2),
         (List.filter (is_new existing) h3).
  rewrite List.filter_app. simpl. rewrite Hnew_a, List.filter_app. simpl. by rewrite Hnew_b.
Qed.

Lemma keyword_phase_run w s :
  keyword_phase w s =
    match get_arxiv_papers_by_keywords w s with
    | (inr papers, s1) => (inr papers, s1)
    | (inl e, s1) => (inr [], after_prints [arxiv_failed e] s1)
    end.
Proof.
  unfold keyword_phase, try_except. run_step.
  by destruct (get_arxiv_papers_by_keywords w s) as [[e|papers] s1].
Qed.

Lemma trending_papers_source entries : ∀ papers,
  trending_papers entries = inr papers → Forall from_hugging_face papers.
Proof.
  induction entries as [|p rest IH]; intros papers Hrun; simpl in Hrun.
  - injection Hrun as <-. constructor.
  - destruct (trending_paper p) as [e|ps] eqn:Hp; [done|]. simpl in Hrun.
    destruct (trending_papers rest) as [e|qs]; [done|]. simpl in Hrun.
    injection Hrun as <-. apply Forall_app. split; [|by apply IH].
    unfold trending_paper in Hp.
    destruct (py_get p "paper" (VDict [])) as [e|paper_info]; [done|]. simpl in Hp.
    destruct (truthy paper_info); simpl in Hp; [|injection Hp as <-; constructor].
    destruct (py_get paper_info "title" _); [done|]. simpl in Hp.
    destruct (py_get paper_info "id" _); [done|]. simpl in Hp.
    destruct (py_get paper_info "summary" _); [done|]. simpl in Hp.
    injection Hp as <-. by repeat constructor.
Qed.

(** Every record the trending fetcher returns carries its source label. *)
Lemma get_huggingface_daily_papers_source w max_results s papers s' :
  get_huggingface_daily_papers w max_results s = (inr papers, s') →
  Forall from_hugging_face papers.
Proof.
  rewrite get_huggingface_daily_papers_run, trending_body_run.
  destruct (fetch_daily_papers _ _ _) as [[e|data] s1]; [by intros [= <- _]|].
  destruct (select_trending data max_results) as [e|ps] eqn:Hsel; [by intros [= <- _]|].
  intros [= <- _]. unfold select_trending in Hsel.
  destruct data; try (injection Hsel as <-; constructor).
  destruct (sorted_by_upvotes l); [done|]. simpl in Hsel.
  by eapply trending_papers_source.
Qed.

Lemma on_topic_record_source p : on_topic_record p → ¬ from_hugging_face p.
Proof. by intros (r & -> & _). Qed.

(** C9: when the keyword fetcher raises, whatever it had collected, the
    caller prints the exception and goes on with an empty list; no paper
    collected before the exception is in the list the run then works on. *)
Theorem keyword_phase_discards_partial_results w s e l s1 :
  arxiv_body w KEYWORDS (no_papers, s) = (inl e, (l, s1)) →
  keyword_phase w s = (inr [], after_prints [arxiv_failed e] s1)
  ∧ (∀ all_papers s',
       gather_papers w s = (inr all_papers, s') →
       ∀ p, p ∈ collected_papers l → p ∉ all_papers).
Proof.
  intros Hraise.
  assert (keyword_phase w s = (inr [], after_prints [arxiv_failed e] s1)) as Hphase.
  { rewrite keyword_phase_run. unfold get_arxiv_papers_by_keywords, call.
    by rewrite Hraise. }
  split; [done|].
  intros all_papers s' Hgather p Hp Hin.
  assert (on_topic_record p) as Hrec.
  { rewrite arxiv_body_run in Hraise.
    pose proof (collected_on_topic w KEYWORDS no_papers
                  (after_prints [fetching] s) ltac:(constructor)) as Hall.
    destruct (for_keywords _ _ _) as [[e'|[]] [l' s'']]; [|done].
    injection Hraise as _ <- _. unfold locals_after in Hall. simpl in Hall.
    rewrite Forall_forall in Hall. by apply Hall. }
  apply (on_topic_record_source p Hrec).
  unfold gather_papers in Hgather. revert Hgather. run_step. rewrite Hphase.
  destruct (get_huggingface_daily_papers w 3 _) as [[e'|hf_papers] s2] eqn:Hhf; [done|].
  apply get_huggingface_daily_papers_source in Hhf.
  unfold deduplicate. simpl.
  destruct (append_new ∅ [] hf_papers) as [e'|merged] eqn:Hmerge; [done|].
  intros [= <- _]. apply append_new_inr in Hmerge as ->. simpl in Hin.
  apply list_elem_of_In, filter_In in Hin as [Hin _].
  rewrite Forall_forall in Hhf. by apply Hhf, list_elem_of_In.
Qed.

End pipeline_facts.

(** On a sample: the chat endpoint cannot be reached. *)
Lemma summary_failure_is_caught_witness :
  summarize_with_ai (H:=ascii_runtime) no_chat_world foo_keyword initial_state
  = (inr (VStr "Summary failed: Connection error."),
     after_chats [completion_request (H:=ascii_runtime) foo_keyword] initial_state).
Proof.
  apply (proj2 (@summary_failure_is_caught ascii_runtime no_chat_world foo_keyword
                  initial_state) APIConnectionError).
  reflexivity.
Defined.

(** On a sample: "Foo Bar" is dropped next to "foo bar", "Same Title" is kept. *)
Lemma deduplicate_keeps_keyword_papers_first_witness :
  deduplicate (H:=ascii_runtime) [foo_keyword] [same_trending_1; foo_trending]
  = inr ([foo_keyword]
           ++ List.filter (survives (H:=ascii_runtime) [foo_keyword])
                [same_trending_1; foo_trending])
  ∧ deduplicate (H:=ascii_runtime) [foo_keyword] [foo_trending] = inr [foo_keyword].
Proof.
  split.
  - apply (proj1 (@deduplicate_keeps_keyword_papers_first ascii_runtime)).
    + repeat constructor. by eexists.
    + repeat constructor; by eexists.
  - apply (proj2 (@deduplicate_keeps_keyword_papers_first ascii_runtime)
             foo_keyword foo_trending); reflexivity.
Defined.

(** On a sample: "Same Title" and "same title" after "Foo Bar". *)
Lemma trending_duplicates_both_kept_witness :
  (∃ existing,
      lowered_titles (H:=ascii_runtime) [foo_keyword] = inr existing
      ∧ [foo_keyword; same_trending_1; same_trending_2]
        = [foo_keyword]
            ++ List.filter (is_new (H:=ascii_runtime) existing)
                 ([foo_trending] ++ same_trending_1 :: [] ++ same_trending_2 :: []))
  ∧ ∃ m1 m2 m3,
      [foo_keyword; same_trending_1; same_trending_2]
      = [foo_keyword] ++ m1 ++ same_trending_1 :: m2 ++ same_trending_2 :: m3.
Proof.
  apply (@trending_duplicates_both_kept ascii_runtime
           [foo_keyword] [foo_trending] same_trending_1 [] same_trending_2 []
           "Same Title" "same title").
  - reflexivity.
  - reflexivity.
  - reflexivity.
  - intros k u Hk Hu.
    apply list_elem_of_In in Hk. destruct Hk as [<-|[]].
    injection Hu as <-. vm_compute. discriminate.
  - vm_compute. reflexivity.
Defined.

(** On a sample: a paper for the first keyword, then a search that fails. *)
Lemma keyword_phase_discards_partial_results_witness :
  collected_papers (accept fresh_result no_papers) = [paper_of_result fresh_result]
  ∧ keyword_phase failing_search_world initial_state
    = (inr [],
       after_prints [arxiv_failed ConnectionError]
         (after_prints [fetching; searching "Agents"; searching "Large Language Models"]
            (after_reads 1 initial_state)))
  ∧ (∀ all_papers s',
       gather_papers (H:=ascii_runtime) failing_search_world initial_state
       = (inr all_papers, s') →
       ∀ p, p ∈ collected_papers (accept fresh_result no_papers) → p ∉ all_papers).
Proof.
  split; [reflexivity|].
  apply (@keyword_phase_discards_partial_results ascii_runtime failing_search_world
           initial_state ConnectionError (accept fresh_result no_papers)).
  vm_compute. reflexivity.
Defined.

(** A whole run on a sample: one keyword paper and the three trending
    papers with most upvotes are summarised and posted, in that order. *)
Example main_sample :
  fst (main (H:=ascii_runtime) busy_world initial_state) = inr tt
  ∧ fst (gather_papers (H:=ascii_runtime) busy_world initial_state)
    = inr [ paper_of_result fresh_result;
            trending_record "2611.00009" "Nine";
            trending_record "2611.00007" "Seven";
            trending_record "2611.00003" "Three" ]
  ∧ length (posts (snd (main (H:=ascii_runtime) busy_world initial_state))) = 4%nat
  ∧ length (chats (snd (main (H:=ascii_runtime) busy_world initial_state))) = 4%nat
  ∧ gets (snd (main (H:=ascii_runtime) busy_world initial_state))
    = [daily_papers_url "2026-11-03"].
Proof. repeat split; vm_compute; reflexivity. Qed.

(** ** Further properties of the Keyword Paper Fetcher *)

(** X1: one turn of the inner loop takes a result exactly when its
    identifier is new, fewer than three days (72 hours, in microseconds)
    lie between its publication and the clock reading, and its primary
    category starts with "cs" or "stat". *)
Theorem loop_body_accepts w r l s :
  fst (loop_body w r (l, s))
  = inr (negb (seen r l)
         && (clock w (clock_reads s) - arxiv.published r <? 3 * US_PER_DAY)
         && startswith ["cs"; "stat"] (arxiv.primary_category r)).
Proof.
  rewrite loop_body_run.
  destruct (seen r l); [done|]. cbn [negb andb].
  destruct (too_old _ r) eqn:Hold.
  - apply too_old_iff in Hold. apply Z.ltb_ge in Hold. by rewrite Hold.
  - assert ((clock w (clock_reads s) - arxiv.published r <? 3 * US_PER_DAY) = true) as ->.
    { apply Z.ltb_lt. apply Z.nle_gt. intros Hge. apply too_old_iff in Hge. congruence. }
    unfold off_topic. by destruct (startswith _ (arxiv.primary_category r)).
Qed.

Lemma accept_distinct_ids w l n r :
  distinct_ids l → passes w l n r → distinct_ids (accept r l).
Proof.
  intros [Hnodup Hseen] (Hnew & _ & _). unfold seen in Hnew.
  apply bool_decide_eq_false in Hnew. split; simpl.
  - rewrite fmap_app. apply NoDup_app. split; [done|]. split.
    + intros u Hu [<-|[]]%list_elem_of_In.
      apply list_elem_of_fmap in Hu as (p & Hp & Hin). simpl in Hp.
      apply Hnew. rewrite Hp. by apply Hseen.
    + apply NoDup_singleton.
  - intros p [Hp|Hp]%elem_of_app.
    + apply elem_of_union. left. by apply Hseen.
    + apply list_elem_of_singleton in Hp as ->. simpl. set_solver.
Qed.

(** X2: no two papers of the list the fetcher returns have the same url
    (the arXiv identifier): a result collected for one keyword is not
    collected again for another. *)
Theorem keyword_papers_distinct w s papers s' :
  get_arxiv_papers_by_keywords w s = (inr papers, s') →
  NoDup (url <$> papers).
Proof.
  rewrite get_arxiv_papers_by_keywords_run. intros Hrun.
  pose proof (for_keywords_invariant w distinct_ids (accept_distinct_ids w)
                KEYWORDS no_papers (after_prints [fetching] s)) as Hinv.
  destruct (for_keywords _ _ _) as [[e|[]] [l' s'']]; [done|].
  injection Hrun as <- <-. apply Hinv. split; [constructor|]. by intros p Hp%elem_of_nil.
Qed.

(** On a sample: the same paper answers two keywords and is returned once. *)
Lemma keyword_papers_distinct_witness :
  fst (get_arxiv_papers_by_keywords repeated_world initial_state)
  = inr [paper_of_result fresh_result]
  ∧ NoDup (url <$> [paper_of_result fresh_result]).
Proof.
  split; [vm_compute; reflexivity|].
  apply (keyword_papers_distinct repeated_world initial_state
           [paper_of_result fresh_result]
           (snd (get_arxiv_papers_by_keywords repeated_world initial_state))).
  vm_compute. reflexivity.
Defined.

(** The loop over the keywords, when it returns: the records appended are
    those of one result each for some of the keywords, in the order of the
    keywords, each result from the search for its own keyword. *)
Lemma for_keywords_provenance w keywords : ∀ l s l' s',
  for_keywords w keywords (l, s) = (inr tt, (l', s')) →
  ∃ ks rs,
    sublist ks keywords
    ∧ Forall2 (λ k r, yields w k r ∧ off_topic r = false) ks rs
    ∧ collected_papers l' = collected_papers l ++ (paper_of_result <$> rs).
Proof.
  induction keywords as [|keyword rest IH]; intros l s l' s' Hrun.
  - injection Hrun as <- <-. exists [], []. split; [constructor|].
    split; [constructor|]. by rewrite app_nil_r.
  - rewrite for_keywords_cons in Hrun.
    destruct (for_keyword_spec w keyword l s)
      as [(pre & r & post & n & Hitems & _ & (_ & _ & Hon) & Hk)
         |[(skip & n & _ & _ & Hk)|(pre & e & post & n & _ & _ & Hk)]];
      rewrite Hk in Hrun; [| |done].
    + destruct (IH _ _ _ _ Hrun) as (ks & rs & Hsub & Hall & Hcol).
      exists (keyword :: ks), (r :: rs). split; [by constructor|]. split.
      * constructor; [|done]. split; [|done].
        unfold yields. rewrite Hitems. apply elem_of_app. right. left.
      * rewrite Hcol. simpl. by rewrite <- app_assoc.
    + destruct (IH _ _ _ _ Hrun) as (ks & rs & Hsub & Hall & Hcol).
      exists ks, rs. split; [by constructor|]. done.
Qed.

(** X3: the list the fetcher returns holds, in the order of the keywords,
    the record of one result for each keyword of a sub-list of the
    configured keywords; each result was yielded by the search for its own
    keyword and is on topic. *)
Theorem keyword_papers_provenance w s papers s' :
  get_arxiv_papers_by_keywords w s = (inr papers, s') →
  ∃ ks rs,
    sublist ks KEYWORDS
    ∧ Forall2 (λ k r, yields w k r ∧ off_topic r = false) ks rs
    ∧ papers = paper_of_result <$> rs.
Proof.
  rewrite get_arxiv_papers_by_keywords_run. intros Hrun.
  destruct (for_keywords _ _ _) as [[e|[]] [l' s'']] eqn:Hloop; [done|].
  injection Hrun as <- <-.
  destruct (for_keywords_provenance _ _ _ _ _ _ Hloop) as (ks & rs & Hsub & Hall & Hcol).
  by exists ks, rs.
Qed.

(** On a sample: an economics paper ahead of a cs.CL paper for the first
    keyword. *)
Lemma keyword_papers_provenance_witness :
  ∃ ks rs,
    sublist ks KEYWORDS
    ∧ Forall2 (λ k r, yields mixed_world k r ∧ off_topic r = false) ks rs
    ∧ [paper_of_result fresh_result] = paper_of_result <$> rs.
Proof.
  apply (keyword_papers_provenance mixed_world initial_state
           [paper_of_result fresh_result]
           (snd (get_arxiv_papers_by_keywords mixed_world initial_state))).
  vm_compute. reflexivity.
Defined.

Lemma for_keywords_raises w keywords : ∀ l s e ls,
  for_keywords w keywords (l, s) = (inl e, ls) →
  ∃ k, k ∈ keywords ∧ may_raise w k e.
Proof.
  induction keywords as [|keyword rest IH]; intros l s e ls Hrun; [done|].
  rewrite for_keywords_cons in Hrun.
  destruct (for_keyword_spec w keyword l s)
    as [(pre & r & post & n & _ & _ & _ & Hk)
       |[(rs & n & _ & _ & Hk)|(pre & e' & post & n & Hitems & _ & Hk)]];
    rewrite Hk in Hrun.
  - destruct (IH _ _ _ _ Hrun) as (k & Hin & Hraise). exists k. split; [by right|done].
  - destruct (IH _ _ _ _ Hrun) as (k & Hin & Hraise). exists k. split; [by right|done].
  - injection Hrun as <- _. exists keyword. split; [by left|].
    unfold may_raise. rewrite Hitems. apply elem_of_app. right. left.
Qed.

(** X4: the fetcher raises nothing of its own: an exception it raises was
    raised by the search for one of the configured keywords. *)
Theorem keyword_fetch_raises_only_search_errors w s e s' :
  get_arxiv_papers_by_keywords w s = (inl e, s') →
  ∃ k, k ∈ KEYWORDS ∧ may_raise w k e.
Proof.
  rewrite get_arxiv_papers_by_keywords_run. intros Hrun.
  destruct (for_keywords _ _ _) as [[e'|[]] [l' s'']] eqn:Hloop; [|done].
  injection Hrun as <- _. by eapply for_keywords_raises.
Qed.

(** On a sample: the search for the second keyword fails. *)
Lemma keyword_fetch_raises_only_search_errors_witness :
  ∃ k, k ∈ KEYWORDS ∧ may_raise failing_search_world k ConnectionError.
Proof.
  apply (keyword_fetch_raises_only_search_errors failing_search_world initial_state
           ConnectionError
           (snd (get_arxiv_papers_by_keywords failing_search_world initial_state))).
  vm_compute. reflexivity.
Defined.

(** Each turn that returns adds two to the number of lines printed plus
    the number of papers collected: the search line, and either a paper or
    the line that nothing was found. *)
Lemma for_keywords_lines w keywords : ∀ l s l' s',
  for_keywords w keywords (l, s) = (inr tt, (l', s')) →
  (length (stdout s') + length (collected_papers l')
   = length (stdout s) + length (collected_papers l) + 2 * length keywords)%nat.
Proof.
  induction keywords as [|keyword rest IH]; intros l s l' s' Hrun.
  - injection Hrun as <- <-. simpl. lia.
  - rewrite for_keywords_cons in Hrun.
    destruct (for_keyword_spec w keyword l s)
      as [(pre & r & post & n & _ & _ & _ & Hk)
         |[(skip & n & _ & _ & Hk)|(pre & e & post & n & _ & _ & Hk)]];
      rewrite Hk in Hrun; [| |done];
      apply IH in Hrun; simpl in Hrun; rewrite ?length_app in Hrun;
      simpl in Hrun |- *; lia.
Qed.

(** X15: when the fetcher returns, it has printed its first line, one
    search line for each of the 7 keywords, and one line of the form
    "- keyword: ..." for each keyword without a paper: 15 lines less the
    number of papers returned. *)
Theorem keyword_fetch_lines w s papers s' :
  get_arxiv_papers_by_keywords w s = (inr papers, s') →
  (length (stdout s') + length papers = length (stdout s) + 15)%nat.
Proof.
  rewrite get_arxiv_papers_by_keywords_run. intros Hrun.
  destruct (for_keywords _ _ _) as [[e|[]] [l' s'']] eqn:Hloop; [done|].
  injection Hrun as <- <-.
  apply for_keywords_lines in Hloop. simpl in Hloop |- *.
  rewrite length_app in Hloop. simpl in Hloop. lia.
Qed.

(** On a sample: one paper for the first keyword, none for the others. *)
Lemma keyword_fetch_lines_witness :
  (length (stdout (snd (get_arxiv_papers_by_keywords mixed_world initial_state)))
   + length [paper_of_result fresh_result]
   = length (stdout initial_state) + 15)%nat.
Proof.
  apply (keyword_fetch_lines mixed_world initial_state [paper_of_result fresh_result]).
  vm_compute. reflexivity.
Defined.

(** ** Further properties of the Trending Paper Fetcher *)

Section trending_more.
Context `{PyRuntime}.

Lemma trending_paper_labelled x ps :
  trending_paper x = inr ps → (length ps ≤ 1)%nat ∧ Forall trending_labelled ps.
Proof.
  unfold trending_paper.
  destruct (py_get x "paper" (VDict [])) as [e|paper_info]; [done|]. simpl.
  destruct (truthy paper_info); simpl.
  - destruct (py_get paper_info "title" _); [done|]. simpl.
    destruct (py_get paper_info "id" _); [done|]. simpl.
    destruct (py_get paper_info "summary" _); [done|]. simpl.
    intros [= <-]. split; [done|].
    constructor; [|constructor]. unfold trending_labelled. simpl.
    split_and!; try reflexivity. by destruct (format _).
  - intros [= <-]. split; [simpl; lia|constructor].
Qed.

Lemma trending_papers_labelled entries : ∀ papers,
  trending_papers entries = inr papers →
  (length papers ≤ length entries)%nat ∧ Forall trending_labelled papers.
Proof.
  induction entries as [|x rest IH]; intros papers Hrun; simpl in Hrun.
  - injection Hrun as <-. by split.
  - destruct (trending_paper x) as [e|ps] eqn:Hx; [done|]. simpl in Hrun.
    destruct (trending_papers rest) as [e|qs]; [done|]. simpl in Hrun.
    injection Hrun as <-.
    destruct (trending_paper_labelled x ps Hx) as [Hlen Hps].
    destruct (IH qs eq_refl) as [Hlen' Hqs].
    split; [rewrite length_app; simpl; lia|]. by apply Forall_app.
Qed.

(** What the fetcher returns, from the answer it kept. *)
Lemma get_huggingface_daily_papers_cases w N s :
  ∃ s', (get_huggingface_daily_papers w N s = (inr [], s'))
        ∨ ∃ items sorted,
            sorted_by_upvotes items = inr sorted
            ∧ ∃ papers, trending_papers (slice_to N sorted) = inr papers
                        ∧ get_huggingface_daily_papers w N s = (inr papers, s').
Proof.
  rewrite get_huggingface_daily_papers_run, trending_body_run.
  destruct (fetch_daily_papers _ _ _) as [[e|data] s1]; [eexists; by left|].
  unfold select_trending.
  destruct data as [| | | |items|]; try (eexists; by left).
  destruct (sorted_by_upvotes items) as [e|sorted] eqn:Hsort; [eexists; by left|]. simpl.
  destruct (trending_papers _) as [e|papers] eqn:Hpapers; [eexists; by left|].
  exists s1. right. exists items, sorted. split; [done|]. by exists papers.
Qed.

(** X5: for a count N that is not negative the fetcher returns at most N
    records, whatever the endpoint answers. *)
Theorem trending_at_most_max_results w N s papers s' :
  0 ≤ N →
  get_huggingface_daily_papers w N s = (inr papers, s') →
  (length papers ≤ Z.to_nat N)%nat.
Proof.
  intros HN Hrun.
  destruct (get_huggingface_daily_papers_cases w N s)
    as [s1 [Hnil|(items & sorted & _ & ps & Hps & Hrun')]].
  - rewrite Hnil in Hrun. injection Hrun as <- _. simpl. lia.
  - rewrite Hrun' in Hrun. injection Hrun as <- _.
    apply trending_papers_labelled in Hps as [Hlen _].
    unfold slice_to in Hlen. apply Z.leb_le in HN. rewrite HN in Hlen.
    rewrite length_take in Hlen. lia.
Qed.

(** X6: every record the fetcher returns carries the source label
    "Hugging Face" with the fire sign, the authors "Community Trending",
    the colour 16776960, and a url under https://huggingface.co/papers/. *)
Theorem trending_records_labelled w N s papers s' :
  get_huggingface_daily_papers w N s = (inr papers, s') →
  Forall trending_labelled papers.
Proof.
  intros Hrun.
  destruct (get_huggingface_daily_papers_cases w N s)
    as [s1 [Hnil|(items & sorted & _ & ps & Hps & Hrun')]].
  - rewrite Hnil in Hrun. injection Hrun as <- _. constructor.
  - rewrite Hrun' in Hrun. injection Hrun as <- _.
    by apply trending_papers_labelled in Hps as [_ Hall].
Qed.

Lemma fetch_daily_papers_offline w url s e :
  requests_get w (length (gets s)) url = inl e →
  gets (snd (fetch_daily_papers w url s)) = gets s ++ [url].
Proof.
  intros Hget. unfold fetch_daily_papers, http_get. run_step. by rewrite Hget.
Qed.

(** X7: the fetcher issues one GET request, for today's date, or two, the
    second for the day before; it issues the second exactly when the first
    was answered with a status other than 200 or with a 200 whose body
    decodes to an empty value. *)
Theorem trending_requests w N s :
  gets (snd (get_huggingface_daily_papers w N s))
  = gets s ++ daily_papers_url (today_of w s)
             :: (if retries w s then [daily_papers_url (yesterday_of w s)] else []).
Proof.
  rewrite get_huggingface_daily_papers_gets. unfold retries.
  destruct (requests_get w _ _) as [e|resp] eqn:Hget.
  - by rewrite (fetch_daily_papers_offline w _ (hf_started s) e Hget).
  - rewrite (fetch_daily_papers_gets w _ (hf_started s) resp Hget).
    fold (yesterday_of w s). simpl.
    destruct (status_code resp =? 200); [|done].
    destruct (json resp) as [e|body]; [done|]. by destruct (truthy body).
Qed.

(** The keys are asked of the entries in order: the first entry that is
    not an object stops the sort. *)
Lemma sorted_by_upvotes_malformed data :
  Exists (λ x, is_dict x = false) data →
  ∃ x, x ∈ data ∧ is_dict x = false
       ∧ sorted_by_upvotes data = inl (AttributeError x "get").
Proof.
  induction data as [|y data IH]; intros Hex; [by inversion Hex|].
  destruct (is_dict y) eqn:Hy.
  - apply Exists_cons in Hex as [Hex|Hex]; [congruence|].
    destruct (IH Hex) as (x & Hin & Hx & Hrun). exists x.
    split; [by right|]. split; [done|].
    destruct y; try done. unfold sorted_by_upvotes in *. simpl.
    destruct (map_raising _ data) as [e|keyed]; simpl in *; [done|].
    by destruct (sort_desc keyed).
  - exists y. split; [by left|]. split; [done|]. by destruct y.
Qed.

(** X8: when the answer kept is a list with an entry that is not an
    object, the fetcher returns the empty list, whatever the other entries
    are, and prints the AttributeError of such an entry. *)
Theorem trending_malformed_entry_discards_all w N s data s1 :
  fetch_daily_papers w (daily_papers_url (today_of w s)) (hf_started s)
    = (inr (VList data), s1) →
  Exists (λ x, is_dict x = false) data →
  ∃ x, x ∈ data ∧ is_dict x = false
       ∧ get_huggingface_daily_papers w N s
         = (inr [], after_prints [hf_failed (AttributeError x "get")] s1).
Proof.
  intros Hfetch Hex.
  destruct (sorted_by_upvotes_malformed data Hex) as (x & Hin & Hx & Hsort).
  exists x. split; [done|]. split; [done|].
  rewrite get_huggingface_daily_papers_run, trending_body_run, Hfetch.
  unfold select_trending. by rewrite Hsort.
Qed.

Lemma py_lt_orderable a b below :
  py_lt a b = inr below → unorderable a = false ∧ unorderable b = false.
Proof. destruct a, b; simpl; intros Hlt; try done. Qed.

Lemma insert_desc_perm {A} k (x : A) l : ∀ l',
  insert_desc k x l = inr l' → l' ≡ₚ (k, x) :: l.
Proof.
  induction l as [|[k' y] l IH]; intros l' Hrun; simpl in Hrun.
  - by injection Hrun as <-.
  - destruct (py_lt k k') as [e|[]]; simpl in Hrun; [done| |].
    + destruct (insert_desc k x l) as [e|l'']; simpl in Hrun; [done|].
      injection Hrun as <-. rewrite (IH l'' eq_refl). apply perm_swap.
    + by injection Hrun as <-.
Qed.

Lemma sort_desc_perm {A} (l : list (pyval * A)) : ∀ s, sort_desc l = inr s → s ≡ₚ l.
Proof.
  induction l as [|[k x] l IH]; intros s Hrun; simpl in Hrun.
  - by injection Hrun as <-.
  - destruct (sort_desc l) as [e|s']; simpl in Hrun; [done|].
    rewrite (insert_desc_perm _ _ _ _ Hrun). by rewrite (IH s' eq_refl).
Qed.

(** A sort of two pairs or more that returns has compared every key with
    another: no key is a value that cannot be compared. *)
Lemma sort_desc_orderable {A} (l : list (pyval * A)) : ∀ s,
  sort_desc l = inr s → (2 ≤ length l)%nat →
  Forall (λ kx, unorderable kx.1 = false) l.
Proof.
  induction l as [|[k x] l IH]; intros s Hrun Hlen; simpl in *; [lia|].
  destruct (sort_desc l) as [e|s'] eqn:Hsort; simpl in Hrun; [done|].
  pose proof (sort_desc_perm l s' Hsort) as Hperm.
  destruct s' as [|[k' y] s''].
  { apply Permutation_nil_l in Hperm. subst l. simpl in Hlen. lia. }
  simpl in Hrun.
  destruct (py_lt k k') as [e|below] eqn:Hlt; [done|].
  apply py_lt_orderable in Hlt as [Hk Hk'].
  constructor; [done|].
  destruct l as [|kx1 [|kx2 l]].
  - simpl in Hlen. lia.
  - apply Permutation_singleton_r in Hperm. injection Hperm as <- _.
    by repeat constructor.
  - apply (IH _ eq_refl). simpl. lia.
Qed.

Lemma map_raising_keys data : ∀ keyed,
  map_raising (λ x, k ← upvotes x; mret (k, x)) data = inr keyed →
  Forall2 (λ x kx, upvotes x = inr kx.1) data keyed.
Proof.
  induction data as [|x data IH]; intros keyed Hrun; simpl in Hrun.
  - injection Hrun as <-. constructor.
  - destruct (upvotes x) as [e|k] eqn:Hx; [done|]. simpl in Hrun.
    destruct (map_raising _ data) as [e|rest]; [done|]. simpl in Hrun.
    injection Hrun as <-. constructor; [done|]. by apply IH.
Qed.

(** The sort of line 107 raises on two entries or more when the upvotes of
    one are null. *)
Lemma sorted_by_upvotes_null data :
  (2 ≤ length data)%nat →
  Exists (λ x, upvotes x = inr VNone) data →
  ∃ e, sorted_by_upvotes data = inl e.
Proof.
  intros Hlen Hex. unfold sorted_by_upvotes.
  destruct (map_raising _ data) as [e|keyed] eqn:Hkeys; [by eexists|]. simpl.
  destruct (sort_desc keyed) as [e|s] eqn:Hsort; [by eexists|]. exfalso.
  apply map_raising_keys in Hkeys.
  pose proof (Forall2_length _ _ _ Hkeys) as Hsame.
  apply sort_desc_orderable in Hsort; [|lia].
  apply Exists_exists in Hex as (x & Hin & Hx).
  apply list_elem_of_lookup in Hin as [i Hi].
  destruct (Forall2_lookup_l _ _ _ _ _ Hkeys Hi) as (kx & Hkx & Hup).
  rewrite Forall_forall in Hsort.
  specialize (Hsort kx (list_elem_of_lookup_2 _ _ _ Hkx)).
  rewrite Hx in Hup. injection Hup as Hup. by rewrite <- Hup in Hsort.
Qed.

(** X9: when the answer kept is a list of two entries or more and the
    upvotes of one entry are null, the sort raises and the fetcher returns
    the empty list: null upvotes are not read as 0. *)
Theorem trending_null_upvotes_discards_all w N s data s1 :
  fetch_daily_papers w (daily_papers_url (today_of w s)) (hf_started s)
    = (inr (VList data), s1) →
  (2 ≤ length data)%nat →
  Exists (λ x, upvotes x = inr VNone) data →
  ∃ e, get_huggingface_daily_papers w N s
       = (inr [], after_prints [hf_failed e] s1).
Proof.
  intros Hfetch Hlen Hex.
  destruct (sorted_by_upvotes_null data Hlen Hex) as [e Hsort].
  exists e.
  rewrite get_huggingface_daily_papers_run, trending_body_run, Hfetch.
  unfold select_trending. by rewrite Hsort.
Qed.

End trending_more.

(** On the sample of five entries, capped at 2. *)
Lemma trending_at_most_max_results_witness :
  (length [trending_record "2611.00009" "Nine"; trending_record "2611.00007" "Seven"]
   ≤ Z.to_nat 2)%nat.
Proof.
  apply (@trending_at_most_max_results ascii_runtime trending_world 2 initial_state _
           (snd (get_huggingface_daily_papers (H:=ascii_runtime) trending_world 2
                   initial_state))).
  - lia.
  - vm_compute. reflexivity.
Defined.

(** On the sample of five entries, capped at 2. *)
Lemma trending_records_labelled_witness :
  Forall trending_labelled
    [trending_record "2611.00009" "Nine"; trending_record "2611.00007" "Seven"].
Proof.
  apply (@trending_records_labelled ascii_runtime trending_world 2 initial_state _
           (snd (get_huggingface_daily_papers (H:=ascii_runtime) trending_world 2
                   initial_state))).
  vm_compute. reflexivity.
Defined.

(** On a sample: an entry that is a string. *)
Lemma trending_malformed_entry_discards_all_witness :
  ∃ x, x ∈ [trending_entry "2611.00009" "Nine" 9; VStr "oops"]
       ∧ is_dict x = false
       ∧ get_huggingface_daily_papers (H:=ascii_runtime) malformed_world 3 initial_state
         = (inr [],
            after_prints [hf_failed (AttributeError x "get")]
              (after_gets [daily_papers_url "2026-11-03"] (hf_started initial_state))).
Proof.
  apply (@trending_malformed_entry_discards_all ascii_runtime malformed_world 3
           initial_state).
  - vm_compute. reflexivity.
  - apply Exists_cons_tl, Exists_cons_hd. reflexivity.
Defined.

(** On a sample: two entries, the second with null upvotes. *)
Lemma trending_null_upvotes_discards_all_witness :
  ∃ e, get_huggingface_daily_papers (H:=ascii_runtime) null_upvotes_world 3 initial_state
       = (inr [],
          after_prints [hf_failed e]
            (after_gets [daily_papers_url "2026-11-03"] (hf_started initial_state))).
Proof.
  apply (@trending_null_upvotes_discards_all ascii_runtime null_upvotes_world 3
           initial_state
           [ trending_entry "2611.00009" "Nine" 9;
             VDict [ ("paper", VDict [("id", VStr "2611.00008")]);
                     ("upvotes", VNone) ] ]).
  - vm_compute. reflexivity.
  - simpl. lia.
  - apply Exists_cons_tl, Exists_cons_hd. reflexivity.
Defined.

(** ** Further properties of the Summarizer, the Notifier and the main program *)

Section pipeline_more.
Context `{PyRuntime}.

Lemma summarize_with_ai_run w paper_data s :
  ∃ summary,
    summarize_with_ai w paper_data s
    = (inr summary, after_chats [completion_request paper_data] s).
Proof.
  unfold summarize_with_ai, try_except, chat_completions_create. run_step.
  destruct (chat_create w _ _) as [e|choices]; [by eexists|].
  destruct (first_choice choices); by eexists.
Qed.

(** X10: the summarizer issues one completion request and changes nothing
    else of the process; it returns the content of the first choice of the
    answer, and the text "Summary failed: list index out of range" when the
    answer has no choice. *)
Theorem summarize_one_request w paper_data s :
  snd (summarize_with_ai w paper_data s) = after_chats [completion_request paper_data] s
  ∧ (∀ c choices,
       chat_create w (length (chats s)) (completion_request paper_data) = inr (c :: choices) →
       fst (summarize_with_ai w paper_data s) = inr c)
  ∧ (chat_create w (length (chats s)) (completion_request paper_data) = inr [] →
     fst (summarize_with_ai w paper_data s)
     = inr (VStr "Summary failed: list index out of range")).
Proof.
  split; [|split].
  - by destruct (summarize_with_ai_run w paper_data s) as [summary ->].
  - intros c choices Hchat.
    unfold summarize_with_ai, try_except, chat_completions_create. run_step.
    by rewrite Hchat.
  - intros Hchat.
    unfold summarize_with_ai, try_except, chat_completions_create. run_step.
    by rewrite Hchat.
Qed.

Lemma send_discord_embed_run w paper_data summary s :
  send_discord_embed w paper_data summary s
  = (requests_post w (length (posts s)) (WEBHOOK_URL w)
       (payload paper_data summary (today_of w s)),
     after_posts [(WEBHOOK_URL w, payload paper_data summary (today_of w s))]
       (after_reads (S (clock_reads s)) s)).
Proof. done. Qed.






Lemma keyword_phase_papers w s :
  ∃ kw s1,
    keyword_phase w s = (inr kw, s1)
    ∧ Forall on_topic_record kw
    ∧ (length kw ≤ length KEYWORDS)%nat.
Proof.
  rewrite keyword_phase_run, get_arxiv_papers_by_keywords_run.
  pose proof (collected_on_topic w KEYWORDS no_papers
                (after_prints [fetching] s) ltac:(constructor)) as Hall.
  pose proof (for_keywords_length w KEYWORDS no_papers (after_prints [fetching] s)) as Hlen.
  destruct (for_keywords _ _ _) as [[e|[]] [l' s1]].
  - eexists [], _. split; [done|]. split; [constructor|simpl; lia].
  - by eexists _, _.
Qed.

Lemma get_huggingface_daily_papers_papers w N s :
  0 ≤ N →
  ∃ hf s1,
    get_huggingface_daily_papers w N s = (inr hf, s1)
    ∧ Forall trending_labelled hf
    ∧ (length hf ≤ Z.to_nat N)%nat.
Proof.
  intros HN.
  destruct (get_huggingface_daily_papers_cases w N s)
    as [s1 [Hnil|(items & sorted & _ & ps & Hps & Hrun)]].
  - exists [], s1. split; [done|]. split; [constructor|simpl; lia].
  - exists ps, s1. split; [done|].
    apply trending_papers_labelled in Hps as [Hlen Hall]. split; [done|].
    unfold slice_to in Hlen. apply Z.leb_le in HN. rewrite HN in Hlen.
    rewrite length_take in Hlen. lia.
Qed.

Lemma on_topic_record_title p : on_topic_record p → has_str_title p.
Proof. intros (r & -> & _). by eexists. Qed.

(** The gathering, from the lists of its two phases. *)
Lemma gather_papers_run w s :
  ∃ kw s1 hf s2,
    keyword_phase w s = (inr kw, s1)
    ∧ get_huggingface_daily_papers w 3 s1 = (inr hf, s2)
    ∧ Forall on_topic_record kw ∧ (length kw ≤ length KEYWORDS)%nat
    ∧ Forall trending_labelled hf ∧ (length hf ≤ 3)%nat
    ∧ gather_papers w s = (deduplicate kw hf, s2).
Proof.
  destruct (keyword_phase_papers w s) as (kw & s1 & Hkw & Hrec & Hlen).
  destruct (get_huggingface_daily_papers_papers w 3 s1 ltac:(lia))
    as (hf & s2 & Hhf & Hlab & Hlen').
  exists kw, s1, hf, s2. repeat (split; [done|]).
  unfold gather_papers. run_step. rewrite Hkw, Hhf.
  by destruct (deduplicate kw hf).
Qed.

(** X13: the list the run works on holds at most 7 keyword papers, first,
    then at most 3 trending papers: at most 10 papers. *)
Theorem gather_papers_at_most_ten w s all_papers s' :
  gather_papers w s = (inr all_papers, s') →
  ∃ kw survivors,
    all_papers = kw ++ survivors
    ∧ Forall on_topic_record kw ∧ (length kw ≤ 7)%nat
    ∧ Forall trending_labelled survivors ∧ (length survivors ≤ 3)%nat
    ∧ (length all_papers ≤ 10)%nat.
Proof.
  destruct (gather_papers_run w s)
    as (kw & s1 & hf & s2 & _ & _ & Hrec & Hlen & Hlab & Hlen' & ->).
  intros [= Hmerge <-]. unfold deduplicate in Hmerge.
  destruct (lowered_titles kw) as [e|existing]; [done|]. simpl in Hmerge.
  apply append_new_inr in Hmerge as ->.
  exists kw, (List.filter (is_new existing) hf).
  assert (length (List.filter (is_new existing) hf) ≤ 3)%nat as Hfew.
  { etrans; [apply filter_length_le|done]. }
  split; [done|]. split; [done|]. split; [exact Hlen|].
  split.
  - rewrite Forall_forall in Hlab |- *. intros h Hh.
    apply list_elem_of_In, filter_In in Hh as [Hh _]. by apply Hlab, list_elem_of_In.
  - split; [done|]. rewrite length_app. change (length KEYWORDS) with 7%nat in Hlen. lia.
Qed.

Lemma append_new_inl existing hf_papers : ∀ all_papers e,
  append_new existing all_papers hf_papers = inl e →
  ∃ h, h ∈ hf_papers ∧ is_str (title h) = false
       ∧ e = AttributeError (title h) "lower".
Proof.
  induction hf_papers as [|hf rest IH]; intros all_papers e Hrun; simpl in Hrun; [done|].
  destruct (title hf) as [| | |t| |] eqn:Ht; simpl in Hrun;
    try (injection Hrun as <-; exists hf; rewrite Ht; by split; [left|]).
  destruct (bool_decide _); apply IH in Hrun as (h & Hin & Hstr & ->);
    exists h; by split; [right|].
Qed.

(** X14: the gathering raises only when the title of a trending paper is
    not a string: the exception is the AttributeError of the call of
    [lower] on that title, raised outside any [try]. *)
Theorem gather_papers_raises_on_title w s e s' :
  gather_papers w s = (inl e, s') →
  ∃ s1 hf h,
    get_huggingface_daily_papers w 3 s1 = (inr hf, s')
    ∧ h ∈ hf ∧ is_str (title h) = false
    ∧ e = AttributeError (title h) "lower".
Proof.
  destruct (gather_papers_run w s)
    as (kw & s1 & hf & s2 & _ & Hhf & Hrec & _ & _ & _ & ->).
  intros [= Hmerge <-]. unfold deduplicate in Hmerge.
  destruct (lowered_titles_str kw) as [existing Hset].
  { eapply Forall_impl; [exact Hrec|]. apply on_topic_record_title. }
  rewrite Hset in Hmerge. simpl in Hmerge.
  apply append_new_inl in Hmerge as (h & Hin & Hstr & ->).
  by exists s1, hf, h.
Qed.

End pipeline_more.

(** On samples: an answer with one choice, an answer with none. *)
Lemma summarize_one_request_witness :
  fst (summarize_with_ai (H:=ascii_runtime) quiet_world foo_keyword initial_state)
  = inr (VStr "**TL;DR**: fine")
  ∧ fst (summarize_with_ai (H:=ascii_runtime) no_choice_world foo_keyword initial_state)
    = inr (VStr "Summary failed: list index out of range").
Proof.
  split.
  - apply (proj1 (proj2 (@summarize_one_request ascii_runtime quiet_world foo_keyword
                           initial_state)) (VStr "**TL;DR**: fine") []).
    reflexivity.
  - apply (proj2 (proj2 (@summarize_one_request ascii_runtime no_choice_world foo_keyword
                           initial_state))).
    reflexivity.
Defined.



(** On the sample of a whole run: one keyword paper, three trending. *)
Lemma gather_papers_at_most_ten_witness :
  ∃ kw survivors,
    [ paper_of_result fresh_result;
      trending_record "2611.00009" "Nine";
      trending_record "2611.00007" "Seven";
      trending_record "2611.00003" "Three" ] = kw ++ survivors
    ∧ Forall on_topic_record kw ∧ (length kw ≤ 7)%nat
    ∧ Forall trending_labelled survivors ∧ (length survivors ≤ 3)%nat
    ∧ (length [ paper_of_result fresh_result;
                trending_record "2611.00009" "Nine";
                trending_record "2611.00007" "Seven";
                trending_record "2611.00003" "Three" ] ≤ 10)%nat.
Proof.
  apply (@gather_papers_at_most_ten ascii_runtime busy_world initial_state _
           (snd (gather_papers (H:=ascii_runtime) busy_world initial_state))).
  vm_compute. reflexivity.
Defined.

(** On a sample: a trending paper whose title is null. *)
Lemma gather_papers_raises_on_title_witness :
  ∃ s1 hf h,
    get_huggingface_daily_papers (H:=ascii_runtime) null_title_world 3 s1
    = (inr hf, snd (gather_papers (H:=ascii_runtime) null_title_world initial_state))
    ∧ h ∈ hf ∧ is_str (title h) = false
    ∧ AttributeError VNone "lower" = AttributeError (title h) "lower".
Proof.
  apply (@gather_papers_raises_on_title ascii_runtime null_title_world initial_state).
  vm_compute. reflexivity.
Defined.
